(** * Weather front-end (src/app.py): a shallow embedding and its properties

    The module under study is a single Flask application: display helpers,
    a geocoding client, a memoized weather client and one request handler.
    Embedded here are the Celsius conversion, the date formatter, the two
    clients and the handler.  Python values decoded from JSON are an
    inductive type, Python dictionaries are [gmap string _], and the effects
    of the program (outbound HTTP calls, the wall clock, the log, the cache
    and raised exceptions) live in a state-and-exception monad over an
    explicit [World]. *)

From Stdlib Require Import ZArith QArith Lia Lqa Ascii String DecimalString.
From stdpp Require Import gmap strings list fin_maps.

Set Warnings "-register-all".
Local Open Scope Z_scope.

(** ** Python values *)

(** The values [response.json()] can produce.  [JNull] is Python's [None];
    numbers (Python [int] or [float]) are kept abstract in [Num], since the
    handler never computes with them. *)
Inductive json (Num : Type) : Type :=
  | JNull
  | JBool (b : bool)
  | JNum (n : Num)
  | JStr (s : string)
  | JArr (l : list (json Num))
  | JObj (m : gmap string (json Num)).

Arguments JNull {Num}.
Arguments JBool {Num} b.
Arguments JNum {Num} n.
Arguments JStr {Num} s.
Arguments JArr {Num} l.
Arguments JObj {Num} m.

(** The exceptions the program can meet. *)
Inductive pyexn : Type :=
  | KeyError (key : string)
  | IndexError
  | TypeError
  | AttributeError
  | ValueError
  | ConnectionError
  | HTTPError (status : Z)
  | JSONDecodeError
  | UnknownTimeZoneError.

(** Outcome of running a piece of Python: a value or a raised exception. *)
Inductive Res (A : Type) : Type :=
  | Ok (a : A)
  | Raise (e : pyexn).

Arguments Ok {A} a.
Arguments Raise {A} e.

Definition is_ok {A} (r : Res A) : bool :=
  match r with Ok _ => true | Raise _ => false end.

(** ** Strings *)

(** [needle in haystack] on Python strings. *)
Fixpoint str_contains (needle haystack : string) : bool :=
  String.prefix needle haystack ||
  match haystack with
  | EmptyString => false
  | String _ rest => str_contains needle rest
  end.

Definition str_truthy (s : string) : bool :=
  match s with EmptyString => false | String _ _ => true end.

(** ** The outside world *)

(** The two outbound calls the program issues.  [GeocodeCall name] is
    [requests.get(GEOCODE_URL, params={name, count: 1, language: en,
    format: json})]; [WeatherCall lat lon units] is
    [requests.get(WEATHER_URL, params)] with the fixed field selection of
    lines 87-95. *)
Inductive OutCall (Num : Type) : Type :=
  | GeocodeCall (name : string)
  | WeatherCall (lat lon : json Num) (units : string).

Arguments GeocodeCall {Num} name.
Arguments WeatherCall {Num} lat lon units.

(** An HTTP response: its status code and its body decoded as JSON, [None]
    when the body is not JSON. *)
Record Response (Num : Type) : Type := mkResponse {
  status_code : Z;
  body : option (json Num)
}.

Arguments mkResponse {Num} status_code body.
Arguments status_code {Num} r.
Arguments body {Num} r.

Inductive Outcome (Num : Type) : Type :=
  | TransportFailure
  | Responded (r : Response Num).

Arguments TransportFailure {Num}.
Arguments Responded {Num} r.

Inductive LogEntry : Type :=
  | GeocodingError (city_name : string) (e : pyexn)
  | WeatherAPIError (e : pyexn).

(** Cache keys: Flask-Caching derives the key of a memoized call from the
    [repr] of its argument tuple. *)
Definition CacheKey : Type := (string * string * string)%type.

(** Clock readings are counted in microseconds. *)
Definition ticks_per_second : Z := 1000000.

(** line 11: [CACHE_DEFAULT_TIMEOUT: 300] seconds. *)
Definition CACHE_DEFAULT_TIMEOUT : Z := 300 * ticks_per_second.

(** The state the program runs against.  [net n c] is what the network
    answers to the [n]-th outbound call when that call is [c], together with
    the time the call takes; [calls] records the outbound calls made so far,
    oldest first; [store] holds the data entries of the [SimpleCache]
    dictionary, mapping a key to its expiry time and value; [memver] is the
    expiry time of the one other entry of that dictionary, the version
    entry Flask-Caching keeps for the memoized function ([None] while there
    is none). *)
Record World (Num : Type) : Type := mkWorld {
  now : Z;
  net : nat -> OutCall Num -> Z * Outcome Num;
  calls : list (OutCall Num);
  log : list LogEntry;
  store : gmap CacheKey (Z * json Num);
  memver : option Z
}.

Arguments mkWorld {Num} now net calls log store memver.
Arguments now {Num} w.
Arguments net {Num} w.
Arguments calls {Num} w.
Arguments log {Num} w.
Arguments store {Num} w.
Arguments memver {Num} w.

(** ** The monad of Python computations *)

Definition M (Num A : Type) : Type := World Num -> Res A * World Num.

Definition ret {Num A} (a : A) : M Num A := fun w => (Ok a, w).

Definition raise {Num A} (e : pyexn) : M Num A := fun w => (Raise e, w).

Definition bind {Num A B} (m : M Num A) (k : A -> M Num B) : M Num B :=
  fun w =>
    match m w with
    | (Ok a, w') => k a w'
    | (Raise e, w') => (Raise e, w')
    end.

(** [try: m except Exception as e: h e] *)
Definition try_except {Num A} (m : M Num A) (h : pyexn -> M Num A) : M Num A :=
  fun w =>
    match m w with
    | (Ok a, w') => (Ok a, w')
    | (Raise e, w') => h e w'
    end.

Definition lift {Num A} (r : Res A) : M Num A := fun w => (r, w).

Declare Scope py_scope.
Delimit Scope py_scope with py.
Notation "x <- c1 ;; c2" := (bind c1 (fun x => c2))
  (at level 100, c1 at next level, right associativity) : py_scope.
Notation "c1 ;;; c2" := (bind c1 (fun _ => c2))
  (at level 100, right associativity) : py_scope.
Local Open Scope py_scope.

(** ** Unit conversion (lines 33-35) *)

(** Python's arithmetic on whatever numeric type the view passes in. *)
Class PyArith (A : Type) : Type := {
  py_mul : A -> A -> A;
  py_truediv : A -> A -> A;
  py_add : A -> A -> A;
  py_int : Z -> A
}.

Declare Scope pyarith_scope.
Delimit Scope pyarith_scope with pyarith.
Notation "x * y" := (py_mul x y) : pyarith_scope.
Notation "x / y" := (py_truediv x y) : pyarith_scope.
Notation "x + y" := (py_add x y) : pyarith_scope.

(** [return (c_temp * 9 / 5) + 32] *)
Definition c_to_f {A} `{PyArith A} (c_temp : A) : A :=
  py_add (py_truediv (py_mul c_temp (py_int 9)) (py_int 5)) (py_int 32).

(** Exact rational arithmetic as one numeric type. *)
#[export] Instance Q_arith : PyArith Q := {
  py_mul := Qmult;
  py_truediv := Qdiv;
  py_add := Qplus;
  py_int := inject_Z
}.

(** ** Date formatting (lines 38-40) *)

(** The value of one of the characters [0] to [9], for the character
    classes a directive spells out, such as [[0-2]]. *)
Definition digit_value (c : ascii) : option Z :=
  let n := Z.of_N (N_of_ascii c) in
  if (48 <=? n) && (n <=? 57) then Some (n - 48) else None.

Definition digit_char (d : Z) : ascii := ascii_of_N (Z.to_N (48 + d)).

Definition in_range (lo hi : Z) (d : Z) : bool := (lo <=? d) && (d <=? hi).

(** A text is given by the bytes of its UTF-8 encoding.  [decode_utf8]
    reads the code point at the head of a text: one to four bytes, in the
    shortest form and outside the surrogate range. *)
Definition byte_value (c : ascii) : Z := Z.of_N (N_of_ascii c).

Definition continuation (c : ascii) : option Z :=
  let b := byte_value c in
  if in_range 128 191 b then Some (b - 128) else None.

Definition decode_utf8 (s : string) : option (Z * string) :=
  match s with
  | EmptyString => None
  | String c0 s0 =>
      let b0 := byte_value c0 in
      if b0 <? 128 then Some (b0, s0)
      else if in_range 194 223 b0 then
        match s0 with
        | String c1 s1 =>
            match continuation c1 with
            | Some x1 => Some ((b0 - 192) * 64 + x1, s1)
            | None => None
            end
        | _ => None
        end
      else if in_range 224 239 b0 then
        match s0 with
        | String c1 (String c2 s2) =>
            match continuation c1, continuation c2 with
            | Some x1, Some x2 =>
                let cp := (b0 - 224) * 4096 + x1 * 64 + x2 in
                if (2048 <=? cp) && negb (in_range 55296 57343 cp)
                then Some (cp, s2) else None
            | _, _ => None
            end
        | _ => None
        end
      else if in_range 240 244 b0 then
        match s0 with
        | String c1 (String c2 (String c3 s3)) =>
            match continuation c1, continuation c2, continuation c3 with
            | Some x1, Some x2, Some x3 =>
                let cp := (b0 - 240) * 262144 + x1 * 4096 + x2 * 64 + x3 in
                if in_range 65536 1114111 cp then Some (cp, s3) else None
            | _, _, _ => None
            end
        | _ => None
        end
      else None
  end.

(** The code points of the digit zero of every run of ten decimal digits
    (general category Nd) in Unicode 14.0, the character database of
    Python 3.11: the digits [0] to [9] first, then those of the other
    scripts. *)
Definition Nd_zeros : list Z :=
  [ 48; 1632; 1776; 1984; 2406; 2534; 2662; 2790;
    2918; 3046; 3174; 3302; 3430; 3558; 3664; 3792;
    3872; 4160; 4240; 6112; 6160; 6470; 6608; 6784;
    6800; 6992; 7088; 7232; 7248; 42528; 43216; 43264;
    43472; 43504; 43600; 44016; 65296; 66720; 68912; 69734;
    69872; 69942; 70096; 70384; 70736; 70864; 71248; 71360;
    71472; 71904; 72016; 72784; 73040; 73120; 92768; 92864;
    93008; 120782; 120792; 120802; 120812; 120822; 123200; 123632;
    125264; 130032 ].

(** The value of a decimal digit of any script, as [int] reads it. *)
Definition decimal_value (cp : Z) : option Z :=
  match List.find (fun zero => in_range zero (zero + 9) cp) Nd_zeros with
  | Some zero => Some (cp - zero)
  | None => None
  end.

(** One alternative of a [strptime] directive: on success the number read
    and the rest of the input. *)
Definition Alt : Type := string -> option (Z * string).

(** Two digits, the first satisfying [p1] and the second [p2]. *)
Definition two_digits (p1 p2 : Z -> bool) : Alt := fun s =>
  match s with
  | String c1 (String c2 rest) =>
      match digit_value c1, digit_value c2 with
      | Some d1, Some d2 =>
          if p1 d1 && p2 d2 then Some (10 * d1 + d2, rest) else None
      | _, _ => None
      end
  | _ => None
  end.

Definition one_digit (p : Z -> bool) : Alt := fun s =>
  match s with
  | String c rest =>
      match digit_value c with
      | Some d => if p d then Some (d, rest) else None
      | None => None
      end
  | _ => None
  end.

Definition space_digit (p : Z -> bool) : Alt := fun s =>
  match s with
  | String " " rest => one_digit p rest
  | _ => None
  end.

(** Regular-expression alternation: the first alternative that matches. *)
Fixpoint first_of (alts : list Alt) : Alt := fun s =>
  match alts with
  | [] => None
  | a :: more => match a s with Some r => Some r | None => first_of more s end
  end.

(** [\d]: one decimal digit of any script (the pattern is compiled for
    Unicode text). *)
Definition decimal_digit : Alt := fun s =>
  match decode_utf8 s with
  | Some (cp, rest) =>
      match decimal_value cp with
      | Some d => Some (d, rest)
      | None => None
      end
  | None => None
  end.

(** One alternative followed by another, read as a two-digit number. *)
Definition followed_by (first second : Alt) : Alt := fun s =>
  match first s with
  | Some (d1, s1) =>
      match second s1 with
      | Some (d2, rest) => Some (10 * d1 + d2, rest)
      | None => None
      end
  | None => None
  end.

(** [%Y]: [\d\d\d\d], exactly four digits. *)
Definition directive_Y : Alt := fun s =>
  match decimal_digit s with
  | Some (a, s1) =>
      match decimal_digit s1 with
      | Some (b, s2) =>
          match decimal_digit s2 with
          | Some (c, s3) =>
              match decimal_digit s3 with
              | Some (d, rest) =>
                  Some (1000 * a + 100 * b + 10 * c + d, rest)
              | None => None
              end
          | None => None
          end
      | None => None
      end
  | None => None
  end.

(** [%m]: [1[0-2]|0[1-9]|[1-9]]. *)
Definition directive_m : Alt :=
  first_of [ two_digits (Z.eqb 1) (in_range 0 2);
             two_digits (Z.eqb 0) (in_range 1 9);
             one_digit (in_range 1 9) ].

(** [%d]: [3[0-1]|[1-2]\d|0[1-9]|[1-9]| [1-9]]. *)
Definition directive_d : Alt :=
  first_of [ two_digits (Z.eqb 3) (in_range 0 1);
             followed_by (one_digit (in_range 1 2)) decimal_digit;
             two_digits (Z.eqb 0) (in_range 1 9);
             one_digit (in_range 1 9);
             space_digit (in_range 1 9) ].

Definition dash (s : string) : option string :=
  match s with
  | String "-" rest => Some rest
  | _ => None
  end.

(** The calendar arithmetic of Python's [datetime] module. *)
Definition _is_leap (year : Z) : bool :=
  (year mod 4 =? 0) && (negb (year mod 100 =? 0) || (year mod 400 =? 0)).

Definition _DAYS_IN_MONTH : list Z :=
  [-1; 31; 28; 31; 30; 31; 30; 31; 31; 30; 31; 30; 31].

Definition _DAYS_BEFORE_MONTH : list Z :=
  [-1; 0; 31; 59; 90; 120; 151; 181; 212; 243; 273; 304; 334].

Definition _days_in_month (year month : Z) : Z :=
  if (month =? 2) && _is_leap year then 29
  else nth (Z.to_nat month) _DAYS_IN_MONTH 0.

Definition _days_before_year (year : Z) : Z :=
  let y := year - 1 in
  y * 365 + y / 4 - y / 100 + y / 400.

Definition _days_before_month (year month : Z) : Z :=
  nth (Z.to_nat month) _DAYS_BEFORE_MONTH 0
  + (if (2 <? month) && _is_leap year then 1 else 0).

Definition _ymd2ord (year month day : Z) : Z :=
  _days_before_year year + _days_before_month year month + day.

(** [date.weekday()]: Monday is 0. *)
Definition weekday (year month day : Z) : Z :=
  (_ymd2ord year month day + 6) mod 7.

Definition MINYEAR : Z := 1.
Definition MAXYEAR : Z := 9999.

Definition _check_date_fields (year month day : Z) : bool :=
  in_range MINYEAR MAXYEAR year
  && in_range 1 12 month
  && in_range 1 (_days_in_month year month) day.

(** [datetime.strptime(date_str, '%Y-%m-%d')]: the format's regular
    expression is matched at the start of the input, all of the input has
    to be consumed, and the fields have to name a date. *)
Definition strptime_Ymd (date_str : string) : Res (Z * Z * Z) :=
  match directive_Y date_str with
  | Some (year, s1) =>
      match dash s1 with
      | Some s2 =>
          match directive_m s2 with
          | Some (month, s3) =>
              match dash s3 with
              | Some s4 =>
                  match directive_d s4 with
                  | Some (day, EmptyString) =>
                      if _check_date_fields year month day
                      then Ok (year, month, day)
                      else Raise ValueError
                  | _ => Raise ValueError
                  end
              | None => Raise ValueError
              end
          | None => Raise ValueError
          end
      | None => Raise ValueError
      end
  | None => Raise ValueError
  end.

Definition day_abbr : list string :=
  ["Mon"; "Tue"; "Wed"; "Thu"; "Fri"; "Sat"; "Sun"].

Definition month_abbr : list string :=
  ["Jan"; "Feb"; "Mar"; "Apr"; "May"; "Jun";
   "Jul"; "Aug"; "Sep"; "Oct"; "Nov"; "Dec"].

(** A number below 100 as two decimal digits. *)
Definition pad2 (n : Z) : string :=
  String (digit_char (n / 10)) (String (digit_char (n mod 10)) EmptyString).

(** A number below 10000 as four decimal digits. *)
Definition pad4 (n : Z) : string :=
  String (digit_char (n / 1000))
    (String (digit_char (n / 100 mod 10)) (pad2 (n mod 100))).

(** [strftime('%a, %b %d')] in the C locale. *)
Definition strftime_a_b_d (year month day : Z) : string :=
  nth (Z.to_nat (weekday year month day)) day_abbr ""
  +:+ ", " +:+ nth (Z.to_nat (month - 1)) month_abbr ""
  +:+ " " +:+ pad2 day.

Definition format_date_helper (date_str : string) : Res string :=
  match strptime_Ymd date_str with
  | Ok (year, month, day) => Ok (strftime_a_b_d year month day)
  | Raise e => Raise e
  end.

(** The text of a calendar date in the form YYYY-MM-DD. *)
Definition iso_date (year month day : Z) : string :=
  pad4 year +:+ "-" +:+ pad2 month +:+ "-" +:+ pad2 day.

(** The dates of Python's calendar: years 1 to 9999, and a day that exists
    in its month. *)
Definition valid_date (year month day : Z) : Prop :=
  MINYEAR <= year <= MAXYEAR /\ 1 <= month <= 12
  /\ 1 <= day <= _days_in_month year month.

Definition is_digit (c : ascii) : bool :=
  match digit_value c with Some _ => true | None => false end.

Definition all_digits (s : string) : bool :=
  forallb is_digit (list_ascii_of_string s).

(** Abbreviated weekday, comma, space, abbreviated month, space, two
    digits. *)
Definition short_date (out : string) : Prop :=
  exists wd mon dd : string,
    out = wd +:+ ", " +:+ mon +:+ " " +:+ dd
    /\ In wd day_abbr /\ String.length wd = 3%nat
    /\ In mon month_abbr /\ String.length mon = 3%nat
    /\ String.length dd = 2%nat /\ all_digits dd = true.

(** A month or day number written without a leading zero. *)
Definition unpadded (n : Z) : string :=
  if n <? 10 then String (digit_char n) EmptyString else pad2 n.

(** ** Time extraction (lines 43-45) *)

(** [s.split(sep)] for a separator of one character: the pieces between
    the occurrences of [sep], always at least one. *)
Fixpoint split_on (sep : ascii) (s : string) : list string :=
  match s with
  | EmptyString => [EmptyString]
  | String c rest =>
      if Ascii.eqb c sep then EmptyString :: split_on sep rest
      else
        match split_on sep rest with
        | piece :: pieces => String c piece :: pieces
        | [] => [String c EmptyString]
        end
  end.

(** [return time_str.split('T')[1]] *)
Definition slice_time_helper (time_str : string) : Res string :=
  match split_on "T" time_str with
  | _ :: second :: _ => Ok second
  | _ => Raise IndexError
  end.

Fixpoint has_char (c : ascii) (s : string) : bool :=
  match s with
  | EmptyString => false
  | String c' rest => Ascii.eqb c' c || has_char c rest
  end.

(** ** Weather codes (lines 24-30) *)

Definition WEATHER_CODES : gmap Z string :=
  list_to_map
    [ (0, "Clear sky"); (1, "Mainly clear"); (2, "Partly cloudy");
      (3, "Overcast");
      (45, "Fog"); (48, "Depositing rime fog"); (51, "Light drizzle");
      (53, "Moderate drizzle");
      (55, "Dense drizzle"); (61, "Rain"); (63, "Moderate rain");
      (65, "Heavy rain");
      (71, "Snow"); (73, "Moderate snow"); (75, "Heavy snow");
      (80, "Showers");
      (81, "Heavy showers"); (95, "Thunderstorm");
      (99, "Severe thunderstorm") ].

(** ** The Python run time *)

(** What the interpreter and the time-zone database contribute and the
    program takes as given: which numbers are non-zero, the [repr] of a
    value, and which zone names [pytz] knows. *)
Class PyRuntime (Num : Type) : Type := {
  num_truthy : Num -> bool;
  py_repr : json Num -> string;
  tz_known : string -> bool
}.

Section Python.
Context {Num : Type} `{PyRuntime Num}.

(** [bool(v)] *)
Definition py_truthy (v : json Num) : bool :=
  match v with
  | JNull => false
  | JBool b => b
  | JNum n => num_truthy n
  | JStr s => str_truthy s
  | JArr l => match l with [] => false | _ :: _ => true end
  | JObj m => negb (Nat.eqb (size m) 0)
  end.

(** [str(v)], as an f-string field formats it. *)
Definition py_str (v : json Num) : string :=
  match v with
  | JStr s => s
  | _ => py_repr v
  end.

Definition is_str (s : string) (v : json Num) : bool :=
  match v with
  | JStr s' => String.eqb s s'
  | _ => false
  end.

(** [key in v] for a string [key]. *)
Definition py_contains (key : string) (v : json Num) : Res bool :=
  match v with
  | JObj m => Ok (bool_decide (is_Some (m !! key)))
  | JArr l => Ok (existsb (is_str key) l)
  | JStr s => Ok (str_contains key s)
  | _ => Raise TypeError
  end.

(** [v[key]] for a string [key]. *)
Definition py_getitem (v : json Num) (key : string) : Res (json Num) :=
  match v with
  | JObj m =>
      match m !! key with
      | Some x => Ok x
      | None => Raise (KeyError key)
      end
  | _ => Raise TypeError
  end.

(** [v[0]]; the keys of a decoded JSON object are strings, so [0] is never
    among them. *)
Definition py_getitem_0 (v : json Num) : Res (json Num) :=
  match v with
  | JArr l =>
      match l with
      | x :: _ => Ok x
      | [] => Raise IndexError
      end
  | JStr s =>
      match s with
      | String c _ => Ok (JStr (String c EmptyString))
      | EmptyString => Raise IndexError
      end
  | JObj _ => Raise (KeyError "0")
  | _ => Raise TypeError
  end.

(** [v.get(key, default)] with [default] already evaluated. *)
Definition py_get (v : json Num) (key : string) (default : json Num)
  : Res (json Num) :=
  match v with
  | JObj m =>
      match m !! key with
      | Some x => Ok x
      | None => Ok default
      end
  | _ => Raise AttributeError
  end.

(** [v[key] = x] *)
Definition py_setitem (v : json Num) (key : string) (x : json Num)
  : Res (json Num) :=
  match v with
  | JObj m => Ok (JObj (<[key := x]> m))
  | _ => Raise TypeError
  end.

(** [pytz.timezone(zone)] *)
Definition pytz_timezone (zone : json Num) : Res string :=
  match zone with
  | JStr s => if tz_known s then Ok s else Raise UnknownTimeZoneError
  | JNull => Raise UnknownTimeZoneError
  | _ => Raise AttributeError
  end.

(** ** Outbound HTTP *)

(** [requests.get(...)]: the call is recorded, the clock advances by the
    time the call took, and a transport failure raises. *)
Definition requests_get (c : OutCall Num) : M Num (Response Num) :=
  fun w =>
    let '(took, outcome) := net w (length (calls w)) c in
    let w' := mkWorld (now w + took) (net w) (calls w ++ [c]) (log w)
                      (store w) (memver w) in
    match outcome with
    | TransportFailure => (Raise ConnectionError, w')
    | Responded r => (Ok r, w')
    end.

(** [response.raise_for_status()] raises on a 4xx or 5xx status. *)
Definition raise_for_status (r : Response Num) : Res unit :=
  if (400 <=? status_code r) && (status_code r <? 600)
  then Raise (HTTPError (status_code r))
  else Ok tt.

(** [response.json()] *)
Definition response_json (r : Response Num) : Res (json Num) :=
  match body r with
  | Some v => Ok v
  | None => Raise JSONDecodeError
  end.

Definition logger_error (entry : LogEntry) : M Num unit :=
  fun w =>
    (Ok tt, mkWorld (now w) (net w) (calls w) (log w ++ [entry]) (store w)
                    (memver w)).

(** ** Geocoding client (lines 59-80) *)

(** The dictionary [geocode_city] returns on success. *)
Record Location : Type := mkLocation {
  latitude : json Num;
  longitude : json Num;
  location_name : string
}.

(** The body of the [try] block. *)
Definition geocode_city_try (city_name : string) : M Num (option Location) :=
  response <- requests_get (GeocodeCall city_name);;
  lift (raise_for_status response);;;
  data <- lift (response_json response);;
  has_results <- lift (py_contains "results" data);;
  if negb has_results then ret None
  else
    results <- lift (py_getitem data "results");;
    result <- lift (py_getitem_0 results);;
    lat <- lift (py_getitem result "latitude");;
    lon <- lift (py_getitem result "longitude");;
    name <- lift (py_getitem result "name");;
    country <- lift (py_getitem result "country");;
    region <- lift (py_get result "admin1" country);;
    ret (Some (mkLocation lat lon (py_str name +:+ ", " +:+ py_str region))).

Definition geocode_city (city_name : string) : M Num (option Location) :=
  try_except (geocode_city_try city_name)
    (fun e => logger_error (GeocodingError city_name e);;; ret None).

(** ** Weather client (lines 83-101) *)

(** The function under the decorator. *)
Definition get_weather_data_body (lat lon : json Num) (units : string)
  : M Num (json Num) :=
  try_except
    (response <- requests_get (WeatherCall lat lon units);;
     lift (raise_for_status response);;;
     lift (response_json response))
    (fun e => logger_error (WeatherAPIError e);;; ret JNull).

(** [SimpleCache.get]: the stored value while the entry has not expired,
    [None] otherwise. *)
Definition cache_get (key : CacheKey) : M Num (json Num) :=
  fun w =>
    match store w !! key with
    | Some (expires, value) =>
        if (expires =? 0) || (now w <? expires) then (Ok value, w)
        else (Ok JNull, w)
    | None => (Ok JNull, w)
    end.

(** [int(time())]: the clock reading cut down to whole seconds. *)
Definition whole_second (t : Z) : Z :=
  Z.quot t ticks_per_second * ticks_per_second.

(** [SimpleCache.set] with a positive timeout: the entry expires
    [int(time()) + timeout]. *)
Definition cache_set (key : CacheKey) (value : json Num) (timeout : Z)
  : M Num unit :=
  fun w =>
    (Ok tt, mkWorld (now w) (net w) (calls w) (log w)
                    (<[key := (whole_second (now w) + timeout, value)]>
                       (store w))
                    (memver w)).

Definition make_cache_key (lat lon : json Num) (units : string) : CacheKey :=
  (py_repr lat, py_repr lon, py_repr (JStr units)).

(** The version step of a memoized call.  Flask-Caching reads the
    function's version entry; when it is missing or has expired it draws a
    new random version and stores it with the default timeout.  The version
    is part of every data key, so the entries stored under an earlier
    version can never be read again: the model drops them. *)
Definition memoize_version : M Num unit :=
  fun w =>
    let renewed :=
      mkWorld (now w) (net w) (calls w) (log w) ∅
              (Some (whole_second (now w) + CACHE_DEFAULT_TIMEOUT)) in
    match memver w with
    | Some expires =>
        if (expires =? 0) || (now w <? expires) then (Ok tt, w)
        else (Ok tt, renewed)
    | None => (Ok tt, renewed)
    end.

(** [@cache.memoize()] with its default arguments: the version step, then
    a read of the data entry; the timeout is the configured default, and a
    [None] read from the cache counts as a miss ([cache_none=False]),
    whether the entry is missing, expired or holds [None].  The cache holds
    serialized copies, so a value handed out is never shared with the
    store.  The entry limit of [SimpleCache] is not modelled: the store is
    unbounded. *)
Definition memoize (key : CacheKey) (f : M Num (json Num)) : M Num (json Num) :=
  memoize_version;;;
  rv <- cache_get key;;
  match rv with
  | JNull =>
      rv <- f;;
      cache_set key rv CACHE_DEFAULT_TIMEOUT;;;
      ret rv
  | _ => ret rv
  end.

Definition get_weather_data (lat lon : json Num) (units : string)
  : M Num (json Num) :=
  memoize (make_cache_key lat lon units) (get_weather_data_body lat lon units).

(** ** Request handler (lines 104-138) *)

(** The two query parameters of [GET /] the handler reads; [None] when the
    parameter is not given. *)
Record Request : Type := mkRequest {
  arg_location : option string;
  arg_units : option string
}.

(** [datetime.now()] or [datetime.now(tz)]: the clock reading and the zone
    it is expressed in. *)
Record DateTime : Type := mkDateTime {
  instant : Z;
  tzinfo : option string
}.

(** The named values passed to [render_template("index.html", ...)]. *)
Record Page : Type := mkPage {
  weather_data : json Num;
  error : option string;
  location_query : option string;
  units : string;
  page_now : DateTime;
  current : json Num;
  daily : json Num
}.

Definition datetime_now (tz : option string) : M Num DateTime :=
  fun w => (Ok (mkDateTime (now w) tz), w).

(** The templating engine is outside the program: rendering is the page's
    named values. *)
Definition render_template (p : Page) : M Num Page := ret p.

(** Truth value of [request.args.get("location")]. *)
Definition query_truthy (q : option string) : bool :=
  match q with
  | Some s => str_truthy s
  | None => false
  end.

(** Lines 112-121: the chain geocode, fetch, attach the display name. *)
Definition lookup_weather (location_query : string) (units : string)
  : M Num (json Num * option string) :=
  geo <- geocode_city location_query;;
  match geo with
  | Some geo =>
      weather_data <- get_weather_data (latitude geo) (longitude geo) units;;
      if py_truthy weather_data then
        weather_data <- lift (py_setitem weather_data "locationName"
                                (JStr (location_name geo)));;
        ret (weather_data, None)
      else
        ret (weather_data,
             Some ("Could not fetch weather for '" +:+ location_name geo
                   +:+ "'."))
  | None =>
      ret (JNull,
           Some ("Could not find '" +:+ location_query
                 +:+ "'. Try another city."))
  end.

(** Lines 124-127. *)
Definition display_time (weather_data : json Num) : M Num DateTime :=
  now0 <- datetime_now None;;
  has_tz <- (if py_truthy weather_data
             then lift (py_contains "timezone" weather_data)
             else ret false);;
  if has_tz then
    zone <- lift (py_getitem weather_data "timezone");;
    local_timezone <- lift (pytz_timezone zone);;
    datetime_now (Some local_timezone)
  else ret now0.

(** [weather_data[key] if weather_data else None] *)
Definition sub_record (weather_data : json Num) (key : string)
  : M Num (json Num) :=
  if py_truthy weather_data then lift (py_getitem weather_data key)
  else ret JNull.

Definition index (request : Request) : M Num Page :=
  let location_query := arg_location request in
  let units := default "metric" (arg_units request) in
  found <-
    (if query_truthy location_query
     then lookup_weather (default "" location_query) units
     else ret (JNull, None));;
  let '(weather_data, error) := found in
  now <- display_time weather_data;;
  current <- sub_record weather_data "current_weather";;
  daily <- sub_record weather_data "daily";;
  render_template
    (mkPage weather_data error location_query units now current daily).

End Python.

Arguments Location Num : clear implicits.
Arguments Page Num : clear implicits.

(** ** Auxiliary notions used by the statements *)

Section Notions.
Context {Num : Type} `{PyRuntime Num}.

(** The world after [d] more microseconds have passed. *)
Definition elapse (d : Z) (w : World Num) : World Num :=
  mkWorld (now w + d) (net w) (calls w) (log w) (store w) (memver w).

(** What the network answers to the next outbound call, if it is [c]. *)
Definition next_answer (w : World Num) (c : OutCall Num) : Outcome Num :=
  snd (net w (length (calls w)) c).

(** [response.ok] is false: a client or server error status. *)
Definition error_status (r : Response Num) : Prop :=
  400 <= status_code r < 600.

(** The first entry of the results array of a geocoding response that
    arrived with a non-error status. *)
Definition first_result (r : Response Num) : option (gmap string (json Num)) :=
  if (400 <=? status_code r) && (status_code r <? 600) then None
  else
    match body r with
    | Some (JObj m) =>
        match m !! "results" with
        | Some (JArr (JObj result :: _)) => Some result
        | _ => None
        end
    | _ => None
    end.

(** A geocoding response that reports no match: an object without a
    results entry, or with an empty results array. *)
Definition no_results (r : Response Num) : Prop :=
  exists m, body r = Some (JObj m)
            /\ (m !! "results" = None \/ m !! "results" = Some (JArr [])).


(** The handler never raises. *)
Definition index_always_renders : Prop :=
  forall (request : Request) (w : World Num),
    is_ok (fst (index request w)) = true.

(** The handler from line 123 on, once lines 109-121 have produced the
    weather data and the error. *)
Definition render_found (request : Request) (found : json Num * option string)
  : M Num (Page Num) :=
  let '(weather_data, error) := found in
  now <- display_time weather_data;;
  current <- sub_record weather_data "current_weather";;
  daily <- sub_record weather_data "daily";;
  render_template
    (mkPage weather_data error (arg_location request)
            (default "metric" (arg_units request)) now current daily).

(** The world as the version step of a memoized call leaves it. *)
Definition versioned (w : World Num) : World Num := snd (memoize_version w).

Definition with_location_query (q : option string) (p : Page Num) : Page Num :=
  mkPage (weather_data p) (error p) q (units p) (page_now p) (current p)
         (daily p).

(** The world once the outbound call [c] has been made and answered. *)
Definition after_call (c : OutCall Num) (w : World Num) : World Num :=
  mkWorld (now w + fst (net w (length (calls w)) c)) (net w)
          (calls w ++ [c]) (log w) (store w) (memver w).

(** The world with one more log line. *)
Definition logged (entry : LogEntry) (w : World Num) : World Num :=
  mkWorld (now w) (net w) (calls w) (log w ++ [entry]) (store w) (memver w).

(** The zone lines 125-126 select for the displayed time: [None] for the
    server's local time. *)
Definition display_zone (weather_data : json Num) : Res (option string) :=
  if py_truthy weather_data then
    match py_contains "timezone" weather_data with
    | Raise e => Raise e
    | Ok false => Ok None
    | Ok true =>
        match py_getitem weather_data "timezone" with
        | Raise e => Raise e
        | Ok zone =>
            match pytz_timezone zone with
            | Raise e => Raise e
            | Ok z => Ok (Some z)
            end
        end
    end
  else Ok None.

(** The page lines 123-138 build from the weather data and the error when
    the clock reads [t], or the exception they raise. *)
Definition page_at (request : Request) (weather_data : json Num)
    (error : option string) (t : Z) : Res (Page Num) :=
  match display_zone weather_data with
  | Raise e => Raise e
  | Ok zone =>
      match (if py_truthy weather_data
             then py_getitem weather_data "current_weather"
             else Ok JNull) with
      | Raise e => Raise e
      | Ok current =>
          match (if py_truthy weather_data
                 then py_getitem weather_data "daily"
                 else Ok JNull) with
          | Raise e => Raise e
          | Ok daily =>
              Ok (mkPage weather_data error (arg_location request)
                    (default "metric" (arg_units request))
                    (mkDateTime t zone) current daily)
          end
      end
  end.

End Notions.

(** ** Sample data *)

Module Sample.

Definition repr (v : json Q) : string :=
  match v with
  | JNull => "None"
  | JBool true => "True"
  | JBool false => "False"
  | JNum q =>
      NilEmpty.string_of_int (Z.to_int (Qnum q)) +:+ "/"
      +:+ NilEmpty.string_of_uint (Pos.to_uint (Qden q))
  | JStr s => "'" +:+ s +:+ "'"
  | JArr _ => "[...]"
  | JObj _ => "{...}"
  end.

(** A small run time over rational numbers: enough to evaluate the program
    on concrete exchanges. *)
#[export] Instance runtime : PyRuntime Q := {
  num_truthy q := negb (Qeq_bool q 0);
  py_repr := repr;
  tz_known s := existsb (String.eqb s) ["UTC"; "Europe/Paris"; "Asia/Tokyo"]
}.

Definition paris : gmap string (json Q) :=
  list_to_map [ ("name", JStr "Paris"); ("latitude", JNum (4885 # 100));
                ("longitude", JNum (235 # 100));
                ("country", JStr "France");
                ("admin1", JStr "Ile-de-France") ].

Definition paris_no_admin1 : gmap string (json Q) := delete "admin1" paris.

(** A result with its region but without a country. *)
Definition paris_no_country : gmap string (json Q) := delete "country" paris.

Definition geocoding_body (result : gmap string (json Q)) : json Q :=
  JObj (list_to_map [ ("results", JArr [JObj result]) ]).

Definition current_weather : json Q :=
  JObj (list_to_map [ ("temperature", JNum (185 # 10));
                      ("weathercode", JNum (2 # 1)) ]).

Definition daily_series : json Q :=
  JObj (list_to_map [ ("time", JArr [JStr "2024-03-05"]);
                      ("weathercode", JArr [JNum (3 # 1)]) ]).

Definition forecast : gmap string (json Q) :=
  list_to_map [ ("timezone", JStr "Europe/Paris");
                ("current_weather", current_weather);
                ("daily", daily_series) ].

(** A forecast without the current-conditions record. *)
Definition forecast_no_current : gmap string (json Q) :=
  delete "current_weather" forecast.

(** A forecast naming a zone the database does not know. *)
Definition forecast_bad_zone : gmap string (json Q) :=
  <["timezone" := JStr "Mars/Olympus_Mons"]> forecast.

Definition ok_response (v : json Q) : Outcome Q :=
  Responded (mkResponse 200 (Some v)).

(** A network that answers every geocoding call with [result] and every
    weather call with [payload]. *)
Definition serving (result : gmap string (json Q)) (payload : json Q)
  : nat -> OutCall Q -> Z * Outcome Q :=
  fun _ c =>
    match c with
    | GeocodeCall _ => (120000, ok_response (geocoding_body result))
    | WeatherCall _ _ _ => (250000, ok_response payload)
    end.

(** A network on which every call fails in transport. *)
Definition offline : nat -> OutCall Q -> Z * Outcome Q :=
  fun _ _ => (30000, TransportFailure).

(** A network that answers every call with the given status and body. *)
Definition answering (status : Z) (b : option (json Q))
  : nat -> OutCall Q -> Z * Outcome Q :=
  fun _ _ => (50000, Responded (mkResponse status b)).

Definition fresh (n : nat -> OutCall Q -> Z * Outcome Q) : World Q :=
  mkWorld 1709640000000000 n [] [] ∅ None.

Definition paris_request : Request := mkRequest (Some "Paris") None.

(** The exchange in which both calls succeed, step by step. *)
Definition start : World Q := fresh (serving paris (JObj forecast)).

Definition paris_location : Location Q :=
  mkLocation (JNum (4885 # 100)) (JNum (235 # 100)) "Paris, Ile-de-France".

Definition after_geocode : World Q := snd (geocode_city "Paris" start).

Definition after_fetch : World Q :=
  snd (get_weather_data (latitude paris_location) (longitude paris_location)
         "metric" after_geocode).

Definition paris_page : Page Q :=
  mkPage (JObj (<["locationName" := JStr "Paris, Ile-de-France"]> forecast))
         None (Some "Paris") "metric"
         (mkDateTime (now after_fetch) (Some "Europe/Paris"))
         current_weather daily_series.

(** A geocoding service that finds nothing. *)
Definition nowhere : World Q := fresh (answering 200 (Some (JObj ∅))).

Definition nowhere_request : Request := mkRequest (Some "Nowhereville") None.

(** A network whose geocoding works and whose forecast service is down. *)
Definition forecast_down (result : gmap string (json Q))
  : nat -> OutCall Q -> Z * Outcome Q :=
  fun _ c =>
    match c with
    | GeocodeCall _ => (120000, ok_response (geocoding_body result))
    | WeatherCall _ _ _ => (30000, TransportFailure)
    end.



Definition paris_weather_call : OutCall Q :=
  WeatherCall (latitude paris_location) (longitude paris_location) "metric".

(** The error page for a forecast that came back as the empty object. *)
Definition empty_forecast_page (w : World Q) : Page Q :=
  mkPage (JObj ∅)
         (Some "Could not fetch weather for 'Paris, Ile-de-France'.")
         (Some "Paris") "metric" (mkDateTime (now w) None) JNull JNull.

End Sample.

(** * Properties *)

(** ** Unit conversion *)

Local Open Scope pyarith_scope.

(** C8: for every Celsius value [c] of every numeric type, [c_to_f c] is
    [c * 9 / 5 + 32], with the operators read the way Python reads them
    (multiplication and division first, from the left) and no rounding or
    other step added. *)
Theorem c_to_f_exact :
  forall (A : Type) (arith : PyArith A) (c : A),
    c_to_f c = c * py_int 9 / py_int 5 + py_int 32.
Proof. intros A arith c. unfold c_to_f. reflexivity. Qed.

Local Close Scope pyarith_scope.

(** Over the rationals the conversion is the usual linear map. *)
Lemma c_to_f_rational (c : Q) : (c_to_f c == (9 # 5) * c + 32)%Q.
Proof. unfold c_to_f; simpl. field. Qed.

Example c_to_f_freezing : (c_to_f (0 : Q) == 32)%Q.
Proof. rewrite c_to_f_rational. reflexivity. Qed.

Example c_to_f_boiling : (c_to_f (100 : Q) == 212)%Q.
Proof. rewrite c_to_f_rational. reflexivity. Qed.

Example c_to_f_fixed_point : (c_to_f (-40 : Q) == -40)%Q.
Proof. rewrite c_to_f_rational. reflexivity. Qed.

(** ** The handler without a usable query *)

Section Handler.
Context {Num : Type} `{PyRuntime Num}.

Lemma index_falsy_query (request : Request) (w : World Num) :
  query_truthy (arg_location request) = false ->
  index request w =
    (Ok (mkPage JNull None (arg_location request)
           (default "metric" (arg_units request))
           (mkDateTime (now w) None) JNull JNull), w).
Proof.
  intros Hq. unfold index. rewrite Hq. reflexivity.
Qed.

(** C6: a request without the location parameter is rendered with no
    weather data and no error, and leaves the world as it was: no outbound
    call is recorded, nothing is logged and nothing is cached. *)
Theorem index_no_location (request : Request) (w : World Num) :
  arg_location request = None ->
  exists p : Page Num,
    index request w = (Ok p, w)
    /\ weather_data p = JNull /\ error p = None
    /\ current p = JNull /\ daily p = JNull.
Proof.
  intros Hloc. eexists. split.
  - apply index_falsy_query. rewrite Hloc. reflexivity.
  - repeat split.
Qed.

(** C10: a request whose location parameter is the empty string is handled
    as the request without that parameter is: the world is left as it was
    (so no geocoding call), weather data and error are absent, and the two
    pages differ only in the query they echo. *)
Theorem index_empty_location (u : option string) (w : World Num) :
  exists p : Page Num,
    index (mkRequest None u) w = (Ok p, w)
    /\ index (mkRequest (Some "") u) w
       = (Ok (with_location_query (Some "") p), w)
    /\ weather_data p = JNull /\ error p = None.
Proof.
  eexists. split; [|split].
  - apply index_falsy_query. reflexivity.
  - rewrite index_falsy_query by reflexivity. reflexivity.
  - split; reflexivity.
Qed.

(** ** Geocoding *)

Lemma requests_get_run (c : OutCall Num) (w : World Num) :
  requests_get c w =
    (match next_answer w c with
     | TransportFailure => Raise ConnectionError
     | Responded r => Ok r
     end,
     mkWorld (now w + fst (net w (length (calls w)) c)) (net w)
             (calls w ++ [c]) (log w) (store w) (memver w)).
Proof.
  unfold requests_get, next_answer.
  destruct (net w (length (calls w)) c) as [took [|r]]; reflexivity.
Qed.

Lemma geocode_city_of_try (city_name : string) (w : World Num) :
  fst (geocode_city city_name w) =
    match fst (geocode_city_try city_name w) with
    | Ok r => Ok r
    | Raise _ => Ok None
    end.
Proof.
  unfold geocode_city, try_except.
  destruct (geocode_city_try city_name w) as [[r|e] w']; reflexivity.
Qed.

Lemma raise_for_status_error (r : Response Num) :
  error_status r -> raise_for_status r = Raise (HTTPError (status_code r)).
Proof.
  unfold error_status, raise_for_status. intros [Hlo Hhi].
  destruct (400 <=? status_code r) eqn:E1; [|lia].
  destruct (status_code r <? 600) eqn:E2; [reflexivity|lia].
Qed.

(** C3: [geocode_city] returns for every city name and every behaviour of
    the network, with a location or with [None] and never with an
    exception; it returns [None] when the transport fails, when the status
    is a client or server error, and when the response reports no match. *)
Theorem geocode_city_total (city_name : string) (w : World Num) :
  (exists (r : option (Location Num)) (w' : World Num),
      geocode_city city_name w = (Ok r, w'))
  /\ (next_answer w (GeocodeCall city_name) = TransportFailure ->
      fst (geocode_city city_name w) = Ok None)
  /\ (forall r, next_answer w (GeocodeCall city_name) = Responded r ->
                error_status r ->
                fst (geocode_city city_name w) = Ok None)
  /\ (forall r, next_answer w (GeocodeCall city_name) = Responded r ->
                no_results r ->
                fst (geocode_city city_name w) = Ok None).
Proof.
  split; [|split; [|split]].
  - unfold geocode_city, try_except.
    destruct (geocode_city_try city_name w) as [[r|e] w'].
    + eauto.
    + unfold bind, logger_error, ret. eauto.
  - intros Hnet. rewrite geocode_city_of_try.
    unfold geocode_city_try, bind. rewrite requests_get_run, Hnet.
    reflexivity.
  - intros r Hnet Hst. rewrite geocode_city_of_try.
    unfold geocode_city_try, bind. rewrite requests_get_run, Hnet.
    unfold lift. rewrite (raise_for_status_error r Hst). reflexivity.
  - intros r Hnet (m & Hbody & Hres). rewrite geocode_city_of_try.
    unfold geocode_city_try, bind. rewrite requests_get_run, Hnet.
    unfold lift, response_json. rewrite Hbody.
    destruct (raise_for_status r) as [[]|e]; [|reflexivity].
    destruct Hres as [Hres|Hres]; simpl; rewrite Hres; reflexivity.
Qed.

End Handler.

Section Clients.
Context {Num : Type} `{PyRuntime Num}.

(** The [try] block of [geocode_city] on a response, read as a chain of
    partial steps. *)
Lemma geocode_city_try_run (city_name : string) (w : World Num)
    (r : Response Num) :
  next_answer w (GeocodeCall city_name) = Responded r ->
  fst (geocode_city_try city_name w) =
    match raise_for_status r with
    | Raise e => Raise e
    | Ok _ =>
    match response_json r with
    | Raise e => Raise e
    | Ok data =>
    match py_contains "results" data with
    | Raise e => Raise e
    | Ok false => Ok None
    | Ok true =>
    match py_getitem data "results" with
    | Raise e => Raise e
    | Ok results =>
    match py_getitem_0 results with
    | Raise e => Raise e
    | Ok result =>
    match py_getitem result "latitude" with
    | Raise e => Raise e
    | Ok lat =>
    match py_getitem result "longitude" with
    | Raise e => Raise e
    | Ok lon =>
    match py_getitem result "name" with
    | Raise e => Raise e
    | Ok name =>
    match py_getitem result "country" with
    | Raise e => Raise e
    | Ok country =>
    match py_get result "admin1" country with
    | Raise e => Raise e
    | Ok region =>
        Ok (Some (mkLocation lat lon
                    (py_str name +:+ ", " +:+ py_str region)))
    end end end end end end end end end end.
Proof.
  intros Hnet. unfold geocode_city_try, bind.
  rewrite requests_get_run, Hnet. unfold lift, ret.
  repeat match goal with
  | |- context [match ?x with Ok _ => _ | Raise _ => _ end] =>
      destruct x; try reflexivity
  | |- context [negb ?b] => destruct b; try reflexivity
  end.
Qed.

(** X22: whenever [geocode_city] succeeds on a response, the response
    arrived with a non-error status and its first result carries a name;
    the display name is that name, a comma and a space, and then the
    [admin1] label when the result has one and the country otherwise.
    Conversely a first result that carries latitude, longitude, name and
    country makes the call succeed with exactly that display name. *)
Theorem geocode_city_display_name (city_name : string) (w : World Num)
    (r : Response Num) :
  next_answer w (GeocodeCall city_name) = Responded r ->
  (forall loc : Location Num,
      fst (geocode_city city_name w) = Ok (Some loc) ->
      exists (result : gmap string (json Num)) (name : json Num),
        first_result r = Some result
        /\ result !! "name" = Some name
        /\ ((exists a, result !! "admin1" = Some a
                       /\ location_name loc
                          = py_str name +:+ ", " +:+ py_str a)
            \/ (result !! "admin1" = None
                /\ exists c, result !! "country" = Some c
                             /\ location_name loc
                                = py_str name +:+ ", " +:+ py_str c)))
  /\ (forall (result : gmap string (json Num)) (lat lon name c : json Num),
      first_result r = Some result ->
      result !! "latitude" = Some lat ->
      result !! "longitude" = Some lon ->
      result !! "name" = Some name ->
      result !! "country" = Some c ->
      fst (geocode_city city_name w)
      = Ok (Some (mkLocation lat lon
                    (py_str name +:+ ", "
                     +:+ py_str (default c (result !! "admin1")))))).
Proof.
  intros Hnet. split.
  - intros loc.
    rewrite geocode_city_of_try, (geocode_city_try_run _ _ _ Hnet).
    unfold first_result, raise_for_status, response_json.
    destruct ((400 <=? status_code r) && (status_code r <? 600));
      [discriminate|].
    destruct (body r) as [data|]; [|discriminate].
    destruct data as [|b|n|s|l|m]; simpl; try discriminate.
    + destruct (str_contains "results" s); discriminate.
    + destruct (existsb (is_str "results") l); discriminate.
    + destruct (m !! "results") as [results|] eqn:Hres; simpl;
        [|discriminate].
      destruct results as [|b|n|s|l|m']; simpl; try discriminate.
      * destruct s; simpl; discriminate.
      * destruct l as [|result l]; [discriminate|].
        destruct result as [|b|n|s|l'|res]; simpl; try discriminate.
        destruct (res !! "latitude") as [lat|]; [|discriminate].
        destruct (res !! "longitude") as [lon|]; [|discriminate].
        destruct (res !! "name") as [name|] eqn:Hname; [|discriminate].
        destruct (res !! "country") as [c|] eqn:Hc; [|discriminate].
        intros Heq. exists res, name.
        split; [reflexivity|]. split; [exact Hname|].
        destruct (res !! "admin1") as [a|]; inversion Heq; subst; simpl;
          eauto 8.
  - intros result lat lon name c Hfirst Hlat Hlon Hname Hc.
    rewrite geocode_city_of_try, (geocode_city_try_run _ _ _ Hnet).
    revert Hfirst. unfold first_result, raise_for_status, response_json.
    destruct ((400 <=? status_code r) && (status_code r <? 600));
      [discriminate|].
    destruct (body r) as [[| | | | |m]|]; try discriminate.
    destruct (m !! "results") as [[| | | |[|[| | | | |res] l]|]|] eqn:Hres;
      try discriminate.
    intros [= ->]. simpl. rewrite Hres.
    rewrite bool_decide_eq_true_2 by eauto.
    simpl. rewrite Hlat, Hlon, Hname, Hc.
    destruct (result !! "admin1"); reflexivity.
Qed.

(** ** The handler with a query *)

Lemma query_truthy_nonempty (q : string) :
  q <> "" -> query_truthy (Some q) = true.
Proof. destruct q; [congruence|reflexivity]. Qed.

Lemma display_time_world (v : json Num) (w : World Num) :
  snd (display_time v w) = w.
Proof.
  unfold display_time, bind, datetime_now, lift, ret.
  destruct (py_truthy v); [|reflexivity].
  destruct (py_contains "timezone" v) as [[|]|e]; try reflexivity.
  destruct (py_getitem v "timezone") as [zone|e]; [|reflexivity].
  destruct (pytz_timezone zone); reflexivity.
Qed.

Lemma sub_record_run (v : json Num) (key : string) (w : World Num) :
  sub_record v key w =
    ((if py_truthy v then py_getitem v key else Ok JNull), w).
Proof. unfold sub_record, lift, ret. destruct (py_truthy v); reflexivity. Qed.

(** Rendering passes the weather data and the error on as they are, and
    touches neither the cache nor the network. *)
Lemma render_found_ok (request : Request) (v : json Num) (e : option string)
    (w w' : World Num) (p : Page Num) :
  render_found request (v, e) w = (Ok p, w') ->
  w' = w /\ weather_data p = v /\ error p = e.
Proof.
  unfold render_found, bind. pose proof (display_time_world v w) as Hw.
  destruct (display_time v w) as [[t|ex] w0]; simpl in Hw; subst w0;
    [|discriminate].
  rewrite (sub_record_run v "current_weather" w).
  destruct (if py_truthy v then py_getitem v "current_weather" else Ok JNull);
    [|discriminate].
  rewrite (sub_record_run v "daily" w).
  destruct (if py_truthy v then py_getitem v "daily" else Ok JNull);
    [|discriminate].
  unfold render_template, ret. intros [= <- <-]. auto.
Qed.

Lemma render_found_falsy (request : Request) (v : json Num)
    (e : option string) (w : World Num) :
  py_truthy v = false ->
  render_found request (v, e) w =
    (Ok (mkPage v e (arg_location request)
           (default "metric" (arg_units request))
           (mkDateTime (now w) None) JNull JNull), w).
Proof.
  intros Hv. unfold render_found, bind, display_time, bind, datetime_now.
  rewrite Hv. unfold ret. rewrite !sub_record_run, Hv. reflexivity.
Qed.

Lemma index_truthy_query (request : Request) (q : string) (w : World Num) :
  arg_location request = Some q -> q <> "" ->
  index request w =
    match lookup_weather q (default "metric" (arg_units request)) w with
    | (Ok found, w1) => render_found request found w1
    | (Raise e, w1) => (Raise e, w1)
    end.
Proof.
  intros Hloc Hq. destruct request as [loc u]. simpl in Hloc. subst loc.
  unfold index. simpl arg_location. rewrite (query_truthy_nonempty q Hq).
  unfold bind. simpl.
  destruct (lookup_weather q (default "metric" u) w) as [[[v e]|e] w1];
    reflexivity.
Qed.

(** C5: when the request carries a query the handler acts on (a non-empty
    one) and geocoding that query returns [None], the page is rendered with
    the error "Could not find '<query>'. Try another city." and without
    weather data. *)
Theorem index_city_not_found (request : Request) (q : string)
    (w w1 : World Num) :
  arg_location request = Some q -> q <> "" ->
  geocode_city q w = (Ok None, w1) ->
  exists p : Page Num,
    index request w = (Ok p, w1)
    /\ error p = Some ("Could not find '" +:+ q +:+ "'. Try another city.")
    /\ weather_data p = JNull.
Proof.
  intros Hloc Hq Hgeo. rewrite (index_truthy_query request q w Hloc Hq).
  unfold lookup_weather, bind. rewrite Hgeo. unfold ret.
  rewrite render_found_falsy by reflexivity.
  eexists. split; [reflexivity|]. split; reflexivity.
Qed.

(** The weather-unavailable path: a fetch that yields [None] (or any other
    falsy value) is rendered with its own error message. *)
Lemma index_weather_unavailable (request : Request) (q : string)
    (w w1 w2 : World Num) (geo : Location Num) (v : json Num) :
  arg_location request = Some q -> q <> "" ->
  geocode_city q w = (Ok (Some geo), w1) ->
  get_weather_data (latitude geo) (longitude geo)
    (default "metric" (arg_units request)) w1 = (Ok v, w2) ->
  py_truthy v = false ->
  exists p : Page Num,
    index request w = (Ok p, w2)
    /\ error p = Some ("Could not fetch weather for '" +:+ location_name geo
                       +:+ "'.")
    /\ weather_data p = v.
Proof.
  intros Hloc Hq Hgeo Hwd Hv.
  rewrite (index_truthy_query request q w Hloc Hq).
  unfold lookup_weather, bind. rewrite Hgeo, Hwd, Hv. unfold ret.
  rewrite render_found_falsy by exact Hv.
  eexists. split; [reflexivity|]. split; reflexivity.
Qed.

(** C7: on a rendered page the weather data is what the weather fetch
    returned with [locationName] set to the resolved display name and
    nothing else changed: every other key reads as it did in the fetched
    payload, a payload the handler treats as absent is passed on untouched,
    and the world (the cache included) is as the fetch left it. *)
Theorem index_only_attaches_location_name (request : Request) (q : string)
    (w w1 w2 w' : World Num) (geo : Location Num) (v : json Num)
    (p : Page Num) :
  arg_location request = Some q -> q <> "" ->
  geocode_city q w = (Ok (Some geo), w1) ->
  get_weather_data (latitude geo) (longitude geo)
    (default "metric" (arg_units request)) w1 = (Ok v, w2) ->
  index request w = (Ok p, w') ->
  w' = w2
  /\ ((py_truthy v = false /\ weather_data p = v)
      \/ (exists m, v = JObj m
            /\ weather_data p
               = JObj (<["locationName" := JStr (location_name geo)]> m)))
  /\ (forall key, key <> "locationName" ->
        py_getitem (weather_data p) key = py_getitem v key).
Proof.
  intros Hloc Hq Hgeo Hwd. rewrite (index_truthy_query request q w Hloc Hq).
  unfold lookup_weather, bind. rewrite Hgeo, Hwd.
  destruct (py_truthy v) eqn:Hv.
  - unfold lift. destruct v as [|b|n|s|l|m]; simpl; try discriminate.
    unfold ret. intros Hfin. apply render_found_ok in Hfin as (-> & Hp & _).
    split; [reflexivity|]. split; [right; eauto|].
    intros key Hkey. rewrite Hp. simpl.
    rewrite lookup_insert_ne by congruence. reflexivity.
  - unfold ret. intros Hfin. apply render_found_ok in Hfin as (-> & Hp & _).
    split; [reflexivity|]. split; [left; auto|].
    intros key _. rewrite Hp. reflexivity.
Qed.

(** ** Memoization *)

(** The decorated function always returns, after exactly one outbound
    call, and does not touch the cache itself. *)
Lemma get_weather_data_body_total (lat lon : json Num) (units : string)
    (w : World Num) :
  exists (v : json Num) (w' : World Num),
    get_weather_data_body lat lon units w = (Ok v, w')
    /\ calls w' = calls w ++ [WeatherCall lat lon units]
    /\ store w' = store w
    /\ memver w' = memver w.
Proof.
  unfold get_weather_data_body, try_except, bind. rewrite requests_get_run.
  destruct (next_answer w (WeatherCall lat lon units)) as [|r]; simpl.
  - eauto 6.
  - unfold lift. destruct (raise_for_status r) as [[]|e]; simpl; [|eauto 6].
    destruct (response_json r); simpl; eauto 6.
Qed.

Lemma memoize_version_run (w : World Num) :
  memoize_version w = (Ok tt, versioned w).
Proof.
  unfold versioned, memoize_version.
  destruct (memver w) as [expires|]; [|reflexivity].
  destruct ((expires =? 0) || (now w <? expires)); reflexivity.
Qed.

(** The version step touches the cache only: it keeps a live version, and
    otherwise starts a new one over an empty store. *)
Lemma versioned_cases (w : World Num) :
  now (versioned w) = now w /\ net (versioned w) = net w
  /\ calls (versioned w) = calls w /\ log (versioned w) = log w
  /\ (versioned w = w
      \/ (store (versioned w) = ∅
          /\ memver (versioned w)
             = Some (whole_second (now w) + CACHE_DEFAULT_TIMEOUT))).
Proof.
  unfold versioned, memoize_version.
  destruct (memver w) as [expires|]; [|simpl; auto 10].
  destruct ((expires =? 0) || (now w <? expires)); simpl; auto 10.
Qed.


Lemma cache_get_versioned_miss (key : CacheKey) (w : World Num) :
  cache_get key w = (Ok JNull, w) ->
  cache_get key (versioned w) = (Ok JNull, versioned w).
Proof.
  intros Hmiss.
  destruct (versioned_cases w) as (_ & _ & _ & _ & [Hsame|[Hempty _]]).
  - rewrite Hsame. exact Hmiss.
  - unfold cache_get. rewrite Hempty, lookup_empty. reflexivity.
Qed.

Lemma memoize_miss (key : CacheKey) (f : M Num (json Num))
    (w w' : World Num) (v : json Num) :
  cache_get key w = (Ok JNull, w) ->
  f (versioned w) = (Ok v, w') ->
  memoize key f w =
    (Ok v, mkWorld (now w') (net w') (calls w') (log w')
             (<[key := (whole_second (now w') + CACHE_DEFAULT_TIMEOUT, v)]>
                (store w'))
             (memver w')).
Proof.
  intros Hmiss Hf. unfold memoize, bind.
  rewrite memoize_version_run, (cache_get_versioned_miss key w Hmiss), Hf.
  reflexivity.
Qed.


Lemma cache_get_stored_none (key : CacheKey) (w : World Num) (expires : Z) :
  store w !! key = Some (expires, JNull) ->
  cache_get key w = (Ok JNull, w).
Proof.
  intros Hst. unfold cache_get. rewrite Hst.
  destruct ((expires =? 0) || (now w <? expires)); reflexivity.
Qed.

(** A call that finds no live entry goes out once and stores what it got,
    to expire the timeout after the whole second in which it returned. *)
Lemma get_weather_data_miss (lat lon : json Num) (units : string)
    (w : World Num) :
  cache_get (make_cache_key lat lon units) w = (Ok JNull, w) ->
  exists (v : json Num) (w' : World Num),
    get_weather_data_body lat lon units (versioned w) = (Ok v, w')
    /\ get_weather_data lat lon units w
       = (Ok v, mkWorld (now w') (net w') (calls w') (log w')
                  (<[make_cache_key lat lon units
                     := (whole_second (now w') + CACHE_DEFAULT_TIMEOUT, v)]>
                     (store w'))
                  (memver w'))
    /\ calls w' = calls w ++ [WeatherCall lat lon units]
    /\ store w' = store (versioned w)
    /\ memver w' = memver (versioned w).
Proof.
  intros Hmiss.
  destruct (get_weather_data_body_total lat lon units (versioned w))
    as (v & w' & Hbody & Hcalls & Hstore & Hver).
  exists v, w'. split; [exact Hbody|]. split.
  - unfold get_weather_data. apply memoize_miss; assumption.
  - destruct (versioned_cases w) as (_ & _ & Hc & _).
    rewrite Hcalls, Hc. auto.
Qed.


(** A first call that returned [None] is not served from the cache: the
    next call goes out again, whenever it is made. *)
Lemma get_weather_data_refetches_none (lat lon : json Num) (units : string)
    (w w1 : World Num) (d : Z) :
  cache_get (make_cache_key lat lon units) w = (Ok JNull, w) ->
  get_weather_data lat lon units w = (Ok JNull, w1) ->
  calls (snd (get_weather_data lat lon units (elapse d w1)))
  = calls w1 ++ [WeatherCall lat lon units].
Proof.
  intros Hmiss Hfirst.
  destruct (get_weather_data_miss lat lon units w Hmiss)
    as (v & w' & _ & Hrun & _).
  rewrite Hrun in Hfirst. injection Hfirst as -> <-.
  match goal with
  | |- calls (snd (get_weather_data _ _ _ ?w2)) = _ =>
      destruct (get_weather_data_miss lat lon units w2)
        as (v2 & w2' & _ & Hrun2 & Hcalls2 & _)
  end.
  - eapply cache_get_stored_none. simpl. apply lookup_insert_eq.
  - rewrite Hrun2. simpl. exact Hcalls2.
Qed.

End Clients.

(** ** Date formatting *)

Lemma Z_cases_below (n : nat) (P : Z -> Prop) :
  (forall i : nat, (i < n)%nat -> P (Z.of_nat i)) ->
  forall k : Z, 0 <= k < Z.of_nat n -> P k.
Proof.
  intros HP k Hk. rewrite <- (Z2Nat.id k) by lia. apply HP. lia.
Qed.

(** Case analysis on a natural number known to lie below a literal bound. *)
Ltac enumerate_below i tac :=
  repeat first
    [ solve [exfalso; lia]
    | destruct i as [|i];
      [ first [ solve [tac] | solve [intros; exfalso; lia] ] | ] ].

Lemma digit_value_char (k : Z) :
  0 <= k < 10 -> digit_value (digit_char k) = Some k.
Proof.
  revert k. apply (Z_cases_below 10). intros i Hi.
  enumerate_below i ltac:(reflexivity).
Qed.

Lemma is_digit_char (k : Z) : 0 <= k < 10 -> is_digit (digit_char k) = true.
Proof.
  intros Hk. unfold is_digit. rewrite digit_value_char by exact Hk.
  reflexivity.
Qed.

Lemma append_cons (a : ascii) (s t : string) :
  String a s +:+ t = String a (s +:+ t).
Proof. reflexivity. Qed.

Lemma append_nil (t : string) : "" +:+ t = t.
Proof. reflexivity. Qed.

Lemma dash_append (s : string) : dash ("-" +:+ s) = Some s.
Proof. reflexivity. Qed.

Lemma decimal_digit_char (k : Z) (rest : string) :
  0 <= k < 10 -> decimal_digit (String (digit_char k) rest) = Some (k, rest).
Proof.
  revert k. apply (Z_cases_below 10). intros i Hi.
  enumerate_below i ltac:(reflexivity).
Qed.

Lemma directive_Y_pad4 (year : Z) (rest : string) :
  0 <= year <= 9999 -> directive_Y (pad4 year +:+ rest) = Some (year, rest).
Proof.
  intros Hy. unfold pad4, pad2, directive_Y.
  rewrite !append_cons, append_nil.
  rewrite !decimal_digit_char by (Z.div_mod_to_equations; lia).
  f_equal. f_equal. Z.div_mod_to_equations; lia.
Qed.

Lemma directive_m_pad2 (month : Z) (rest : string) :
  1 <= month <= 12 -> directive_m (pad2 month +:+ rest) = Some (month, rest).
Proof.
  intros Hm. assert (Hm' : 0 <= month < Z.of_nat 13) by lia.
  revert month Hm' Hm.
  apply (Z_cases_below 13
           (fun month => 1 <= month <= 12 ->
              directive_m (pad2 month +:+ rest) = Some (month, rest))).
  intros i Hi. enumerate_below i ltac:(reflexivity).
Qed.

Lemma directive_d_pad2 (day : Z) :
  1 <= day <= 31 -> directive_d (pad2 day) = Some (day, EmptyString).
Proof.
  intros Hd. assert (Hd' : 0 <= day < Z.of_nat 32) by lia.
  revert day Hd' Hd.
  apply (Z_cases_below 32
           (fun day => 1 <= day <= 31 ->
              directive_d (pad2 day) = Some (day, EmptyString))).
  intros i Hi. enumerate_below i ltac:(reflexivity).
Qed.

Lemma _days_in_month_bound (year month : Z) :
  1 <= month <= 12 -> 28 <= _days_in_month year month <= 31.
Proof.
  intros Hm. unfold _days_in_month.
  destruct ((month =? 2) && _is_leap year); [lia|].
  assert (Hm' : 0 <= month < Z.of_nat 13) by lia.
  revert month Hm' Hm.
  apply (Z_cases_below 13
           (fun month => 1 <= month <= 12 ->
              28 <= nth (Z.to_nat month) _DAYS_IN_MONTH 0 <= 31)).
  intros i Hi. enumerate_below i ltac:(simpl; lia).
Qed.

(** Parsing the text of a valid date gives its three fields back. *)
Lemma strptime_iso_date (year month day : Z) :
  valid_date year month day ->
  strptime_Ymd (iso_date year month day) = Ok (year, month, day).
Proof.
  intros (Hy & Hm & Hd). unfold MINYEAR, MAXYEAR in Hy.
  pose proof (_days_in_month_bound year month Hm) as Hdim.
  unfold strptime_Ymd, iso_date.
  rewrite directive_Y_pad4 by lia. rewrite dash_append.
  rewrite directive_m_pad2 by lia. rewrite dash_append.
  rewrite directive_d_pad2 by lia.
  unfold _check_date_fields, in_range, MINYEAR, MAXYEAR.
  repeat match goal with
  | |- context [?a <=? ?b] =>
      replace (a <=? b) with true by (symmetry; apply Z.leb_le; lia)
  end.
  reflexivity.
Qed.

Lemma weekday_range (year month day : Z) : 0 <= weekday year month day < 7.
Proof. unfold weekday. apply Z.mod_pos_bound. lia. Qed.

Lemma pad2_shape (n : Z) :
  0 <= n < 100 ->
  String.length (pad2 n) = 2%nat /\ all_digits (pad2 n) = true.
Proof.
  intros Hn. split; [reflexivity|].
  unfold pad2, all_digits. simpl.
  rewrite !is_digit_char by (Z.div_mod_to_equations; lia). reflexivity.
Qed.

Lemma day_abbr_nth (k : Z) :
  0 <= k < 7 ->
  In (nth (Z.to_nat k) day_abbr "") day_abbr
  /\ String.length (nth (Z.to_nat k) day_abbr "") = 3%nat.
Proof.
  revert k. apply (Z_cases_below 7). intros i Hi.
  enumerate_below i ltac:(simpl; intuition).
Qed.

Lemma month_abbr_nth (k : Z) :
  0 <= k < 12 ->
  In (nth (Z.to_nat k) month_abbr "") month_abbr
  /\ String.length (nth (Z.to_nat k) month_abbr "") = 3%nat.
Proof.
  revert k. apply (Z_cases_below 12). intros i Hi.
  enumerate_below i ltac:(simpl; intuition).
Qed.

(** C9: on the text YYYY-MM-DD of every valid date, [format_date] returns
    (it does not raise) the abbreviated weekday of that date, a comma and a
    space, the abbreviated month, a space and the day as two digits. *)
Theorem format_date_shape (year month day : Z) :
  valid_date year month day ->
  format_date_helper (iso_date year month day)
  = Ok (strftime_a_b_d year month day)
  /\ short_date (strftime_a_b_d year month day).
Proof.
  intros Hv. split.
  - unfold format_date_helper. rewrite strptime_iso_date by exact Hv.
    reflexivity.
  - destruct Hv as (Hy & Hm & Hd).
    pose proof (_days_in_month_bound year month Hm) as Hdim.
    destruct (day_abbr_nth (weekday year month day) (weekday_range _ _ _))
      as [Hw1 Hw2].
    destruct (month_abbr_nth (month - 1)) as [Hm1 Hm2]; [lia|].
    destruct (pad2_shape day) as [Hd1 Hd2]; [lia|].
    unfold short_date, strftime_a_b_d.
    eexists _, _, _. split; [reflexivity|]. auto 10.
Qed.

Example format_date_leap_day :
  format_date_helper "2024-02-29" = Ok "Thu, Feb 29".
Proof. vm_compute. reflexivity. Qed.

Example format_date_no_such_day :
  format_date_helper "2023-02-29" = Raise ValueError.
Proof. vm_compute. reflexivity. Qed.

(** ** The properties on concrete exchanges *)

Import Sample.

Lemma format_date_shape_witness :
  valid_date 2024 3 5
  /\ format_date_helper "2024-03-05" = Ok "Tue, Mar 05"
  /\ short_date "Tue, Mar 05".
Proof.
  assert (Hv : valid_date 2024 3 5).
  { unfold valid_date, MINYEAR, MAXYEAR.
    change (_days_in_month 2024 3) with 31. lia. }
  split; [exact Hv|]. exact (format_date_shape 2024 3 5 Hv).
Defined.

Lemma index_no_location_witness :
  arg_location (mkRequest None (Some "fahrenheit")) = None
  /\ exists p : Page Q,
       index (mkRequest None (Some "fahrenheit")) (fresh offline)
       = (Ok p, fresh offline)
       /\ weather_data p = JNull /\ error p = None
       /\ current p = JNull /\ daily p = JNull.
Proof.
  split; [reflexivity|].
  exact (index_no_location (mkRequest None (Some "fahrenheit"))
           (fresh offline) eq_refl).
Defined.

Lemma geocode_city_total_witness :
  fst (geocode_city "Atlantis" (fresh offline)) = Ok None
  /\ fst (geocode_city "Paris" (fresh (answering 503 None))) = Ok None
  /\ fst (geocode_city "Nowhereville" nowhere) = Ok None.
Proof.
  split; [|split].
  - apply (proj1 (proj2 (geocode_city_total "Atlantis" (fresh offline)))).
    reflexivity.
  - apply (proj1 (proj2 (proj2
             (geocode_city_total "Paris" (fresh (answering 503 None)))))
             (mkResponse 503 None)).
    + reflexivity.
    + unfold error_status. simpl. lia.
  - apply (proj2 (proj2 (proj2 (geocode_city_total "Nowhereville" nowhere)))
             (mkResponse 200 (Some (JObj ∅)))).
    + reflexivity.
    + exists ∅. split; [reflexivity|]. left. reflexivity.
Defined.

Lemma geocode_city_display_name_witness :
  next_answer start (GeocodeCall "Paris")
  = ok_response (geocoding_body paris)
  /\ fst (geocode_city "Paris" start) = Ok (Some paris_location)
  /\ fst (geocode_city "Paris" (fresh (serving paris_no_admin1 JNull)))
     = Ok (Some (mkLocation (JNum (4885 # 100)) (JNum (235 # 100))
                   "Paris, France")).
Proof.
  split; [reflexivity|]. split.
  - exact (proj2 (geocode_city_display_name "Paris" start
                    (mkResponse 200 (Some (geocoding_body paris))) eq_refl)
             paris (JNum (4885 # 100)) (JNum (235 # 100)) (JStr "Paris")
             (JStr "France") eq_refl eq_refl eq_refl eq_refl eq_refl).
  - exact (proj2 (geocode_city_display_name "Paris"
                    (fresh (serving paris_no_admin1 JNull))
                    (mkResponse 200 (Some (geocoding_body paris_no_admin1)))
                    eq_refl)
             paris_no_admin1 (JNum (4885 # 100)) (JNum (235 # 100))
             (JStr "Paris") (JStr "France")
             eq_refl eq_refl eq_refl eq_refl eq_refl).
Defined.

Lemma index_city_not_found_witness :
  arg_location nowhere_request = Some "Nowhereville"
  /\ "Nowhereville" <> ""
  /\ geocode_city "Nowhereville" nowhere
     = (Ok None, snd (geocode_city "Nowhereville" nowhere))
  /\ exists p : Page Q,
       index nowhere_request nowhere
       = (Ok p, snd (geocode_city "Nowhereville" nowhere))
       /\ error p = Some "Could not find 'Nowhereville'. Try another city."
       /\ weather_data p = JNull.
Proof.
  assert (Hq : "Nowhereville" <> "") by discriminate.
  assert (Hgeo : geocode_city "Nowhereville" nowhere
                 = (Ok None, snd (geocode_city "Nowhereville" nowhere)))
    by (vm_compute; reflexivity).
  split; [reflexivity|]. split; [exact Hq|]. split; [exact Hgeo|].
  exact (index_city_not_found nowhere_request "Nowhereville" nowhere _
           eq_refl Hq Hgeo).
Defined.

Lemma index_only_attaches_location_name_witness :
  geocode_city "Paris" start = (Ok (Some paris_location), after_geocode)
  /\ get_weather_data (latitude paris_location) (longitude paris_location)
       "metric" after_geocode = (Ok (JObj forecast), after_fetch)
  /\ index paris_request start = (Ok paris_page, after_fetch)
  /\ forall key, key <> "locationName" ->
       py_getitem (weather_data paris_page) key
       = py_getitem (JObj forecast) key.
Proof.
  assert (Hq : "Paris" <> "") by discriminate.
  assert (Hgeo : geocode_city "Paris" start
                 = (Ok (Some paris_location), after_geocode))
    by (vm_compute; reflexivity).
  assert (Hwd : get_weather_data (latitude paris_location)
                  (longitude paris_location) "metric" after_geocode
                = (Ok (JObj forecast), after_fetch))
    by (vm_compute; reflexivity).
  assert (Hidx : index paris_request start = (Ok paris_page, after_fetch))
    by (vm_compute; reflexivity).
  split; [exact Hgeo|]. split; [exact Hwd|]. split; [exact Hidx|].
  exact (proj2 (proj2 (index_only_attaches_location_name paris_request
                         "Paris" start after_geocode after_fetch after_fetch
                         paris_location (JObj forecast) paris_page
                         eq_refl Hq Hgeo Hwd Hidx))).
Defined.



(** C1: the handler raises instead of rendering when the forecast lacks
    the current-conditions record, lacks the daily record, or names a time
    zone the database does not know; so it does not always render. *)
Theorem index_raises_on_partial_forecast :
  fst (index paris_request (fresh (serving paris (JObj forecast_no_current))))
  = Raise (KeyError "current_weather")
  /\ fst (index paris_request
            (fresh (serving paris (JObj (delete "daily" forecast)))))
     = Raise (KeyError "daily")
  /\ fst (index paris_request
            (fresh (serving paris (JObj forecast_bad_zone))))
     = Raise UnknownTimeZoneError
  /\ ~ @index_always_renders Q runtime.
Proof.
  split; [vm_compute; reflexivity|].
  split; [vm_compute; reflexivity|].
  split; [vm_compute; reflexivity|].
  intros Hclaim.
  specialize (Hclaim paris_request
                (fresh (serving paris (JObj forecast_no_current)))).
  vm_compute in Hclaim. discriminate Hclaim.
Qed.

(** * Further properties of the helpers *)

(** ** Time extraction *)

Lemma split_on_cons (sep : ascii) (s : string) :
  exists piece pieces, split_on sep s = piece :: pieces.
Proof.
  induction s as [|c rest IH]; simpl.
  - eauto.
  - destruct (Ascii.eqb c sep); [eauto|].
    destruct IH as (piece & pieces & ->). eauto.
Qed.

Lemma split_on_no_sep (sep : ascii) (s : string) :
  has_char sep s = false -> split_on sep s = [s].
Proof.
  induction s as [|c rest IH]; simpl; [reflexivity|].
  intros Hs. apply orb_false_iff in Hs as [Hc Hrest].
  rewrite Hc, (IH Hrest). reflexivity.
Qed.

Lemma split_on_sep (sep : ascii) (a b : string) :
  has_char sep a = false ->
  split_on sep (a +:+ String sep b) = a :: split_on sep b.
Proof.
  induction a as [|c rest IH]; simpl.
  - intros _. rewrite Ascii.eqb_refl. reflexivity.
  - intros Hs. apply orb_false_iff in Hs as [Hc Hrest].
    rewrite Hc, (IH Hrest). reflexivity.
Qed.

Lemma split_on_single (sep : ascii) (s piece : string) :
  split_on sep s = [piece] -> has_char sep s = false.
Proof.
  revert piece. induction s as [|c rest IH]; simpl; [reflexivity|].
  intros piece. destruct (Ascii.eqb c sep) eqn:Hc.
  - destruct (split_on_cons sep rest) as (p & ps & ->). discriminate.
  - destruct (split_on sep rest) as [|p ps] eqn:Hrest.
    + destruct (split_on_cons sep rest) as (p & ps & Heq). congruence.
    + intros [= _ ->]. simpl. eapply IH. reflexivity.
Qed.

(** X1: on a date part and a time part that contain no T, joined by one T,
    [slice_time] returns the time part whole. *)
Theorem slice_time_one_T (date time : string) :
  has_char "T" date = false -> has_char "T" time = false ->
  slice_time_helper (date +:+ "T" +:+ time) = Ok time.
Proof.
  intros Hd Ht. unfold slice_time_helper.
  change ("T" +:+ time) with (String "T" time).
  rewrite (split_on_sep "T" date time Hd), (split_on_no_sep "T" time Ht).
  reflexivity.
Qed.

Lemma slice_time_one_T_witness :
  slice_time_helper "2024-03-05T14:00" = Ok "14:00".
Proof.
  exact (slice_time_one_T "2024-03-05" "14:00" eq_refl eq_refl).
Defined.

(** X2: when the text after the first T holds a further T, [slice_time]
    returns only what lies between the first two: everything from the
    second T on is dropped. *)
Theorem slice_time_second_T (date time rest : string) :
  has_char "T" date = false -> has_char "T" time = false ->
  slice_time_helper (date +:+ "T" +:+ time +:+ "T" +:+ rest) = Ok time.
Proof.
  intros Hd Ht. unfold slice_time_helper.
  change ("T" +:+ time +:+ "T" +:+ rest)
    with (String "T" (time +:+ String "T" rest)).
  rewrite (split_on_sep "T" date _ Hd), (split_on_sep "T" time rest Ht).
  reflexivity.
Qed.

Lemma slice_time_second_T_witness :
  slice_time_helper "2024-03-05T14:00 EST" = Ok "14:00 ES".
Proof.
  exact (slice_time_second_T "2024-03-05" "14:00 ES" "" eq_refl eq_refl).
Defined.

(** X3: [slice_time] raises [IndexError] exactly on the texts without a
    T (a bare date, the empty string); on every other text it returns. *)
Theorem slice_time_without_T (time_str : string) :
  slice_time_helper time_str = Raise IndexError
  <-> has_char "T" time_str = false.
Proof.
  unfold slice_time_helper. split.
  - destruct (split_on "T" time_str) as [|p [|q ps]] eqn:Hs;
      try discriminate.
    + destruct (split_on_cons "T" time_str) as (p & ps & Heq). congruence.
    + intros _. eapply split_on_single. exact Hs.
  - intros Hs. rewrite (split_on_no_sep _ _ Hs). reflexivity.
Qed.

Lemma slice_time_without_T_witness :
  slice_time_helper "2024-03-05" = Raise IndexError
  /\ slice_time_helper "" = Raise IndexError.
Proof.
  split.
  - exact (proj2 (slice_time_without_T "2024-03-05") eq_refl).
  - exact (proj2 (slice_time_without_T "") eq_refl).
Defined.

(** ** Date formatting beyond the canonical text *)

Lemma check_date_fields_valid (year month day : Z) :
  _check_date_fields year month day = true <-> valid_date year month day.
Proof.
  unfold _check_date_fields, in_range, valid_date.
  rewrite !andb_true_iff, !Z.leb_le. tauto.
Qed.

Lemma strftime_short_date (year month day : Z) :
  valid_date year month day -> short_date (strftime_a_b_d year month day).
Proof.
  intros (Hy & Hm & Hd).
  pose proof (_days_in_month_bound year month Hm) as Hdim.
  destruct (day_abbr_nth (weekday year month day) (weekday_range _ _ _))
    as [Hw1 Hw2].
  destruct (month_abbr_nth (month - 1)) as [Hm1 Hm2]; [lia|].
  destruct (pad2_shape day) as [Hd1 Hd2]; [lia|].
  unfold short_date, strftime_a_b_d.
  eexists _, _, _. split; [reflexivity|]. auto 10.
Qed.

Lemma strptime_Ymd_valid (s : string) (year month day : Z) :
  strptime_Ymd s = Ok (year, month, day) -> valid_date year month day.
Proof.
  unfold strptime_Ymd.
  destruct (directive_Y s) as [[y s1]|]; [|discriminate].
  destruct (dash s1) as [s2|]; [|discriminate].
  destruct (directive_m s2) as [[m s3]|]; [|discriminate].
  destruct (dash s3) as [s4|]; [|discriminate].
  destruct (directive_d s4) as [[d [|c s5]]|]; try discriminate.
  destruct (_check_date_fields y m d) eqn:Hc; [|discriminate].
  intros [= <- <- <-]. apply check_date_fields_valid. exact Hc.
Qed.

(** X4: whatever text [format_date] is given, digits of other scripts in
    the year or the day included, when it returns, the result is the
    formatting of a valid date and has the shape weekday, comma, space,
    month, space, two digits: no input makes it return anything else. *)
Theorem format_date_success_shape (date_str out : string) :
  format_date_helper date_str = Ok out ->
  short_date out
  /\ exists year month day,
       valid_date year month day /\ out = strftime_a_b_d year month day.
Proof.
  unfold format_date_helper.
  destruct (strptime_Ymd date_str) as [[[y m] d]|e] eqn:Hp; [|discriminate].
  intros [= <-]. apply strptime_Ymd_valid in Hp.
  split; [apply strftime_short_date; exact Hp|eauto].
Qed.

Lemma format_date_success_shape_witness :
  format_date_helper "1999-12-31" = Ok "Fri, Dec 31"
  /\ short_date "Fri, Dec 31"
  /\ format_date_helper "٢٠٢٤-03-1٥" = Ok "Fri, Mar 15"
  /\ short_date "Fri, Mar 15".
Proof.
  split; [reflexivity|]. split; [|split; [reflexivity|]].
  - exact (proj1 (format_date_success_shape "1999-12-31" "Fri, Dec 31"
                    eq_refl)).
  - exact (proj1 (format_date_success_shape "٢٠٢٤-03-1٥" "Fri, Mar 15"
                    eq_refl)).
Defined.

Lemma directive_m_unpadded (month : Z) (rest : string) :
  1 <= month <= 12 ->
  directive_m (unpadded month +:+ "-" +:+ rest) = Some (month, "-" +:+ rest).
Proof.
  intros Hm. assert (Hm' : 0 <= month < Z.of_nat 13) by lia.
  revert month Hm' Hm.
  apply (Z_cases_below 13
           (fun month => 1 <= month <= 12 ->
              directive_m (unpadded month +:+ "-" +:+ rest)
              = Some (month, "-" +:+ rest))).
  intros i Hi. enumerate_below i ltac:(reflexivity).
Qed.

Lemma directive_d_unpadded (day : Z) :
  1 <= day <= 31 -> directive_d (unpadded day) = Some (day, EmptyString).
Proof.
  intros Hd. assert (Hd' : 0 <= day < Z.of_nat 32) by lia.
  revert day Hd' Hd.
  apply (Z_cases_below 32
           (fun day => 1 <= day <= 31 ->
              directive_d (unpadded day) = Some (day, EmptyString))).
  intros i Hi. enumerate_below i ltac:(reflexivity).
Qed.

(** X5: month and day need no leading zero: for every valid date the text
    with the month and the day written unpadded is formatted as the padded
    text is. *)
Theorem format_date_unpadded (year month day : Z) :
  valid_date year month day ->
  format_date_helper
    (pad4 year +:+ "-" +:+ unpadded month +:+ "-" +:+ unpadded day)
  = Ok (strftime_a_b_d year month day).
Proof.
  intros Hv. pose proof (proj2 (check_date_fields_valid _ _ _) Hv) as Hc.
  destruct Hv as (Hy & Hm & Hd). unfold MINYEAR, MAXYEAR in Hy.
  pose proof (_days_in_month_bound year month Hm) as Hdim.
  unfold format_date_helper, strptime_Ymd.
  rewrite directive_Y_pad4 by lia. rewrite dash_append.
  rewrite directive_m_unpadded by lia. rewrite dash_append.
  rewrite directive_d_unpadded by lia. rewrite Hc. reflexivity.
Qed.

Lemma format_date_unpadded_witness :
  valid_date 2024 3 5 /\ format_date_helper "2024-3-5" = Ok "Tue, Mar 05".
Proof.
  assert (Hv : valid_date 2024 3 5).
  { unfold valid_date, MINYEAR, MAXYEAR.
    change (_days_in_month 2024 3) with 31. lia. }
  split; [exact Hv|]. exact (format_date_unpadded 2024 3 5 Hv).
Defined.

Lemma directive_d_pad2_rest (day : Z) (rest : string) :
  1 <= day <= 31 -> directive_d (pad2 day +:+ rest) = Some (day, rest).
Proof.
  intros Hd. assert (Hd' : 0 <= day < Z.of_nat 32) by lia.
  revert day Hd' Hd.
  apply (Z_cases_below 32
           (fun day => 1 <= day <= 31 ->
              directive_d (pad2 day +:+ rest) = Some (day, rest))).
  intros i Hi. enumerate_below i ltac:(reflexivity).
Qed.

Lemma append_assoc (a b c : string) : (a +:+ b) +:+ c = a +:+ b +:+ c.
Proof.
  induction a as [|x a IH]; [reflexivity|].
  rewrite !append_cons. f_equal. exact IH.
Qed.

(** X6: [format_date] takes a date and nothing more: the text of a valid
    date followed by anything at all (a time of day, a space) raises
    [ValueError]. *)
Theorem format_date_trailing_text (year month day : Z) (suffix : string) :
  valid_date year month day -> suffix <> "" ->
  format_date_helper (iso_date year month day +:+ suffix) = Raise ValueError.
Proof.
  intros (Hy & Hm & Hd) Hs. unfold MINYEAR, MAXYEAR in Hy.
  pose proof (_days_in_month_bound year month Hm) as Hdim.
  unfold format_date_helper, strptime_Ymd, iso_date.
  rewrite !append_assoc.
  rewrite directive_Y_pad4 by lia. rewrite dash_append.
  rewrite directive_m_pad2 by lia. rewrite dash_append.
  rewrite directive_d_pad2_rest by lia.
  destruct suffix; [congruence|reflexivity].
Qed.

Lemma format_date_trailing_text_witness :
  valid_date 2024 3 5
  /\ format_date_helper "2024-03-05T14:00" = Raise ValueError.
Proof.
  assert (Hv : valid_date 2024 3 5).
  { unfold valid_date, MINYEAR, MAXYEAR.
    change (_days_in_month 2024 3) with 31. lia. }
  split; [exact Hv|].
  apply (format_date_trailing_text 2024 3 5 "T14:00" Hv). discriminate.
Defined.

Lemma directive_m_out_of_range (month : Z) (rest : string) :
  0 <= month < 100 -> ~ 1 <= month <= 12 ->
  match directive_m (pad2 month +:+ "-" +:+ rest) with
  | Some (_, s3) => dash s3 = None
  | None => True
  end.
Proof.
  intros Hm. assert (Hm' : 0 <= month < Z.of_nat 100) by lia. clear Hm.
  revert month Hm'.
  apply (Z_cases_below 100
           (fun month => ~ 1 <= month <= 12 ->
              match directive_m (pad2 month +:+ "-" +:+ rest) with
              | Some (_, s3) => dash s3 = None
              | None => True
              end)).
  intros i Hi. enumerate_below i ltac:(intros _; exact I || reflexivity).
Qed.

Lemma directive_d_out_of_range (day : Z) :
  0 <= day < 100 -> ~ 1 <= day <= 31 ->
  match directive_d (pad2 day) with
  | Some (_, EmptyString) => False
  | _ => True
  end.
Proof.
  intros Hd. assert (Hd' : 0 <= day < Z.of_nat 100) by lia. clear Hd.
  revert day Hd'.
  apply (Z_cases_below 100
           (fun day => ~ 1 <= day <= 31 ->
              match directive_d (pad2 day) with
              | Some (_, EmptyString) => False
              | _ => True
              end)).
  intros i Hi. enumerate_below i ltac:(intros _; exact I).
Qed.

(** X7: a text of the form YYYY-MM-DD that names no calendar date (year
    0000, month 00 or above 12, day 00 or beyond the end of the month) is
    refused with [ValueError], never formatted. *)
Theorem format_date_rejects_invalid (year month day : Z) :
  0 <= year <= 9999 -> 0 <= month < 100 -> 0 <= day < 100 ->
  ~ valid_date year month day ->
  format_date_helper (iso_date year month day) = Raise ValueError.
Proof.
  intros Hy Hm Hd Hinv. unfold format_date_helper, strptime_Ymd, iso_date.
  rewrite directive_Y_pad4 by lia. rewrite dash_append.
  destruct (Z_le_dec 1 month) as [Hm1|Hm1];
    [destruct (Z_le_dec month 12) as [Hm2|Hm2]|].
  - rewrite directive_m_pad2 by lia. rewrite dash_append.
    pose proof (_days_in_month_bound year month (conj Hm1 Hm2)) as Hdim.
    destruct (Z_le_dec 1 day) as [Hd1|Hd1];
      [destruct (Z_le_dec day 31) as [Hd2|Hd2]|].
    + rewrite directive_d_pad2 by lia.
      destruct (_check_date_fields year month day) eqn:Hc; [|reflexivity].
      apply check_date_fields_valid in Hc. contradiction.
    + pose proof (directive_d_out_of_range day Hd ltac:(lia)) as Hno.
      destruct (directive_d (pad2 day)) as [[d [|c s]]|];
        [contradiction|reflexivity|reflexivity].
    + pose proof (directive_d_out_of_range day Hd ltac:(lia)) as Hno.
      destruct (directive_d (pad2 day)) as [[d [|c s]]|];
        [contradiction|reflexivity|reflexivity].
  - pose proof (directive_m_out_of_range month (pad2 day) Hm ltac:(lia))
      as Hno.
    destruct (directive_m (pad2 month +:+ "-" +:+ pad2 day)) as [[m s3]|];
      [rewrite Hno|]; reflexivity.
  - pose proof (directive_m_out_of_range month (pad2 day) Hm ltac:(lia))
      as Hno.
    destruct (directive_m (pad2 month +:+ "-" +:+ pad2 day)) as [[m s3]|];
      [rewrite Hno|]; reflexivity.
Qed.

Lemma format_date_rejects_invalid_witness :
  ~ valid_date 2023 2 29
  /\ format_date_helper "2023-02-29" = Raise ValueError.
Proof.
  assert (Hinv : ~ valid_date 2023 2 29).
  { unfold valid_date. change (_days_in_month 2023 2) with 28. lia. }
  split; [exact Hinv|].
  apply (format_date_rejects_invalid 2023 2 29); [lia|lia|lia|exact Hinv].
Defined.

(** ** Unit conversion over the rationals *)

(** X8: in exact arithmetic the conversion preserves and reflects order: a
    temperature is lower in Celsius exactly when it is lower in
    Fahrenheit. *)
Theorem c_to_f_increasing (a b : Q) :
  (a < b)%Q <-> (c_to_f a < c_to_f b)%Q.
Proof. rewrite !c_to_f_rational. split; intros Hab; lra. Qed.

Lemma c_to_f_increasing_witness : (c_to_f (0 : Q) < c_to_f (100 : Q))%Q.
Proof.
  apply (proj1 (c_to_f_increasing 0 100)). reflexivity.
Defined.

(** X9: in exact arithmetic minus forty is the one temperature that reads
    the same on both scales. *)
Theorem c_to_f_fixed_point_unique (c : Q) :
  (c_to_f c == c)%Q <-> (c == -40)%Q.
Proof. rewrite c_to_f_rational. split; intros Hc; lra. Qed.

Lemma c_to_f_fixed_point_unique_witness : (c_to_f (-40 : Q) == -40)%Q.
Proof.
  apply (proj2 (c_to_f_fixed_point_unique (-40))). reflexivity.
Defined.

(** ** The weather-code table *)

(** X10: every entry of the table has a code between 0 and 99 and a
    non-empty description, and no description stands for two codes. *)
Theorem weather_codes_table (code : Z) (description : string) :
  WEATHER_CODES !! code = Some description ->
  0 <= code <= 99 /\ description <> ""
  /\ forall code', WEATHER_CODES !! code' = Some description -> code' = code.
Proof.
  intros Hc.
  assert (Hin : forall c d, WEATHER_CODES !! c = Some d ->
            In (c, d)
              [ (0, "Clear sky"); (1, "Mainly clear"); (2, "Partly cloudy");
                (3, "Overcast");
                (45, "Fog"); (48, "Depositing rime fog");
                (51, "Light drizzle"); (53, "Moderate drizzle");
                (55, "Dense drizzle"); (61, "Rain"); (63, "Moderate rain");
                (65, "Heavy rain");
                (71, "Snow"); (73, "Moderate snow"); (75, "Heavy snow");
                (80, "Showers");
                (81, "Heavy showers"); (95, "Thunderstorm");
                (99, "Severe thunderstorm") ]).
  { intros c d Hcd. apply list_elem_of_In. apply elem_of_list_to_map_2.
    exact Hcd. }
  pose proof (Hin _ _ Hc) as H1. simpl in H1.
  split; [|split].
  - intuition (try congruence);
      match goal with
      | Heq : (_, _) = (_, _) |- _ => injection Heq as <- <-
      end; lia.
  - intuition (try congruence);
      match goal with
      | Heq : (_, _) = (_, _) |- _ => injection Heq as <- <-
      end; discriminate.
  - intros code' Hc'. pose proof (Hin _ _ Hc') as H2. simpl in H2.
    repeat (destruct H1 as [H1|H1]; [injection H1 as <- <-|]);
      try contradiction;
      repeat (destruct H2 as [H2|H2];
              [try discriminate H2; try (injection H2 as <-; reflexivity)|]);
      try contradiction.
Qed.

Lemma weather_codes_table_witness :
  WEATHER_CODES !! 95 = Some "Thunderstorm"
  /\ forall code', WEATHER_CODES !! code' = Some "Thunderstorm" -> code' = 95.
Proof.
  split; [reflexivity|].
  exact (proj2 (proj2 (weather_codes_table 95 "Thunderstorm" eq_refl))).
Defined.

(** * Further properties of the clients *)

Section Effects.
Context {Num : Type} `{PyRuntime Num}.

Lemma raise_for_status_ok (r : Response Num) :
  ~ error_status r -> raise_for_status r = Ok tt.
Proof.
  intros Hr. unfold raise_for_status, error_status in *.
  destruct (400 <=? status_code r) eqn:E1; [|reflexivity].
  destruct (status_code r <? 600) eqn:E2; [|reflexivity].
  exfalso. apply Hr. lia.
Qed.

Lemma geocode_city_try_world (city_name : string) (w : World Num) :
  snd (geocode_city_try city_name w) = after_call (GeocodeCall city_name) w.
Proof.
  unfold geocode_city_try, bind. rewrite requests_get_run.
  fold (after_call (GeocodeCall city_name) w).
  destruct (next_answer w (GeocodeCall city_name)) as [|r]; [reflexivity|].
  unfold lift, ret.
  repeat match goal with
  | |- context [match ?x with Ok _ => _ | Raise _ => _ end] =>
      destruct x; try reflexivity
  | |- context [negb ?b] => destruct b; try reflexivity
  end.
Qed.

(** The whole of [geocode_city] in terms of its [try] block: the world is
    the one after the call, with one log line more when the block raised. *)
Lemma geocode_city_run (city_name : string) (w : World Num) :
  geocode_city city_name w =
    match fst (geocode_city_try city_name w) with
    | Ok r => (Ok r, after_call (GeocodeCall city_name) w)
    | Raise e =>
        (Ok None,
         logged (GeocodingError city_name e)
           (after_call (GeocodeCall city_name) w))
    end.
Proof.
  unfold geocode_city, try_except.
  pose proof (geocode_city_try_world city_name w) as Hw.
  destruct (geocode_city_try city_name w) as [[r|e] w']; simpl in Hw;
    subst w'; reflexivity.
Qed.

Lemma geocode_city_frame (city_name : string) (w : World Num) :
  calls (snd (geocode_city city_name w)) = calls w ++ [GeocodeCall city_name]
  /\ store (snd (geocode_city city_name w)) = store w.
Proof.
  rewrite geocode_city_run.
  destruct (fst (geocode_city_try city_name w)); split; reflexivity.
Qed.


(** X11: every run of [geocode_city] makes exactly one outbound call, the
    geocoding call for the name it was given (no retry, no second
    request), leaves the cache alone, and writes at most one log line; a
    log line is written only when it returns [None], and it names the
    city. *)
Theorem geocode_city_single_call (city_name : string) (w : World Num) :
  let w' := snd (geocode_city city_name w) in
  calls w' = calls w ++ [GeocodeCall city_name]
  /\ store w' = store w
  /\ (log w' = log w
      \/ (fst (geocode_city city_name w) = Ok None
          /\ exists e, log w' = log w ++ [GeocodingError city_name e])).
Proof.
  rewrite geocode_city_run.
  destruct (fst (geocode_city_try city_name w)) as [r|e]; simpl; eauto 6.
Qed.

(** X12: what [geocode_city] logs tells the failures apart: a transport
    failure, an error status, a body that is not JSON and an empty results
    array each leave one line with the city name and the matching
    exception, while a response without a results entry returns [None]
    and logs nothing. *)
Theorem geocode_city_logging (city_name : string) (w : World Num) :
  (next_answer w (GeocodeCall city_name) = TransportFailure ->
   log (snd (geocode_city city_name w))
   = log w ++ [GeocodingError city_name ConnectionError])
  /\ (forall r, next_answer w (GeocodeCall city_name) = Responded r ->
        error_status r ->
        log (snd (geocode_city city_name w))
        = log w ++ [GeocodingError city_name (HTTPError (status_code r))])
  /\ (forall r, next_answer w (GeocodeCall city_name) = Responded r ->
        ~ error_status r -> body r = None ->
        log (snd (geocode_city city_name w))
        = log w ++ [GeocodingError city_name JSONDecodeError])
  /\ (forall r m, next_answer w (GeocodeCall city_name) = Responded r ->
        ~ error_status r -> body r = Some (JObj m) ->
        m !! "results" = Some (JArr []) ->
        log (snd (geocode_city city_name w))
        = log w ++ [GeocodingError city_name IndexError])
  /\ (forall r m, next_answer w (GeocodeCall city_name) = Responded r ->
        ~ error_status r -> body r = Some (JObj m) ->
        m !! "results" = None ->
        log (snd (geocode_city city_name w)) = log w).
Proof.
  repeat split.
  - intros Hnet. rewrite geocode_city_run.
    unfold geocode_city_try, bind. rewrite requests_get_run, Hnet.
    reflexivity.
  - intros r Hnet Hst. rewrite geocode_city_run.
    rewrite (geocode_city_try_run _ _ _ Hnet), (raise_for_status_error r Hst).
    reflexivity.
  - intros r Hnet Hst Hbody. rewrite geocode_city_run.
    rewrite (geocode_city_try_run _ _ _ Hnet), (raise_for_status_ok r Hst).
    unfold response_json. rewrite Hbody. reflexivity.
  - intros r m Hnet Hst Hbody Hres. rewrite geocode_city_run.
    rewrite (geocode_city_try_run _ _ _ Hnet), (raise_for_status_ok r Hst).
    unfold response_json. rewrite Hbody. simpl. rewrite Hres. reflexivity.
  - intros r m Hnet Hst Hbody Hres. rewrite geocode_city_run.
    rewrite (geocode_city_try_run _ _ _ Hnet), (raise_for_status_ok r Hst).
    unfold response_json. rewrite Hbody. simpl. rewrite Hres. reflexivity.
Qed.

(** C4: the display name is not built for every successful response.
    Line 76 evaluates [result['country']] before it calls [.get], so a
    first result that carries latitude, longitude, name and an [admin1]
    label but no country makes [geocode_city] return [None], with the
    [KeyError] for the country logged, where the name should have been
    "<name>, <admin1>". *)
Theorem geocode_city_admin1_without_country (city_name : string)
    (w : World Num) (r : Response Num) (result : gmap string (json Num))
    (lat lon name a : json Num) :
  next_answer w (GeocodeCall city_name) = Responded r ->
  first_result r = Some result ->
  result !! "latitude" = Some lat ->
  result !! "longitude" = Some lon ->
  result !! "name" = Some name ->
  result !! "admin1" = Some a ->
  result !! "country" = None ->
  fst (geocode_city city_name w) = Ok None
  /\ log (snd (geocode_city city_name w))
     = log w ++ [GeocodingError city_name (KeyError "country")].
Proof.
  intros Hnet Hfirst Hlat Hlon Hname Hadmin Hcountry.
  rewrite geocode_city_run, (geocode_city_try_run _ _ _ Hnet).
  revert Hfirst. unfold first_result, raise_for_status, response_json.
  destruct ((400 <=? status_code r) && (status_code r <? 600));
    [discriminate|].
  destruct (body r) as [[| | | | |m]|]; try discriminate.
  destruct (m !! "results") as [[| | | |[|[| | | | |res] l]|]|] eqn:Hres;
    try discriminate.
  intros [= ->]. simpl. rewrite Hres.
  rewrite bool_decide_eq_true_2 by eauto.
  simpl. rewrite Hlat, Hlon, Hname, Hcountry. simpl. split; reflexivity.
Qed.

(** The decorated function, outcome by outcome. *)
Lemma get_weather_data_body_run (lat lon : json Num) (units : string)
    (w : World Num) :
  get_weather_data_body lat lon units w =
    let w' := after_call (WeatherCall lat lon units) w in
    match next_answer w (WeatherCall lat lon units) with
    | TransportFailure =>
        (Ok JNull, logged (WeatherAPIError ConnectionError) w')
    | Responded r =>
        match raise_for_status r with
        | Raise e => (Ok JNull, logged (WeatherAPIError e) w')
        | Ok _ =>
            match response_json r with
            | Raise e => (Ok JNull, logged (WeatherAPIError e) w')
            | Ok v => (Ok v, w')
            end
        end
    end.
Proof.
  unfold get_weather_data_body, try_except, bind. rewrite requests_get_run.
  fold (after_call (WeatherCall lat lon units) w).
  destruct (next_answer w (WeatherCall lat lon units)) as [|r];
    [reflexivity|].
  unfold lift. destruct (raise_for_status r) as [[]|e]; [|reflexivity].
  destruct (response_json r); reflexivity.
Qed.

(** A call that finds no live entry, outcome by outcome. *)
Lemma get_weather_data_miss_run (lat lon : json Num) (units : string)
    (w : World Num) :
  cache_get (make_cache_key lat lon units) w = (Ok JNull, w) ->
  let c := WeatherCall lat lon units in
  let w' := snd (get_weather_data lat lon units w) in
  exists v : json Num,
    fst (get_weather_data lat lon units w) = Ok v
    /\ now w' = now w + fst (net w (length (calls w)) c)
    /\ calls w' = calls w ++ [c]
    /\ store w' !! make_cache_key lat lon units
       = Some (whole_second (now w') + CACHE_DEFAULT_TIMEOUT, v)
    /\ memver w' = memver (versioned w)
    /\ match next_answer w c with
       | TransportFailure =>
           v = JNull /\ log w' = log w ++ [WeatherAPIError ConnectionError]
       | Responded r =>
           match raise_for_status r with
           | Raise e => v = JNull /\ log w' = log w ++ [WeatherAPIError e]
           | Ok _ =>
               match response_json r with
               | Raise e =>
                   v = JNull /\ log w' = log w ++ [WeatherAPIError e]
               | Ok x => v = x /\ log w' = log w
               end
           end
       end.
Proof.
  intros Hmiss c w'.
  destruct (get_weather_data_miss lat lon units w Hmiss)
    as (v & w0 & Hbody & Hrun & Hcalls & _ & Hver).
  subst w'. rewrite Hrun. simpl. exists v.
  rewrite get_weather_data_body_run in Hbody.
  destruct (versioned_cases w) as (Hn & Hnet & Hc & Hl & _).
  unfold next_answer, after_call, logged in Hbody. simpl in Hbody.
  rewrite Hn, Hnet, Hc, Hl in Hbody. fold c in Hbody.
  unfold next_answer. fold c.
  split; [reflexivity|].
  destruct (snd (net w (length (calls w)) c)) as [|r].
  - injection Hbody as <- <-. simpl.
    repeat split; try reflexivity; try apply lookup_insert_eq.
  - destruct (raise_for_status r) as [[]|e].
    + destruct (response_json r) as [x|e]; injection Hbody as <- <-; simpl;
        repeat split; try reflexivity; try apply lookup_insert_eq.
    + injection Hbody as <- <-. simpl.
      repeat split; try reflexivity; try apply lookup_insert_eq.
Qed.


(** X14: on a cache miss, when the forecast call fails in transport,
    comes back with an error status or has a body that is not JSON,
    [get_weather_data] returns [None] after its one outbound call and
    leaves exactly one log line for the failure. *)
Theorem get_weather_data_failure (lat lon : json Num) (units : string)
    (w : World Num) :
  cache_get (make_cache_key lat lon units) w = (Ok JNull, w) ->
  (next_answer w (WeatherCall lat lon units) = TransportFailure
   \/ exists r, next_answer w (WeatherCall lat lon units) = Responded r
                /\ (error_status r \/ body r = None)) ->
  let w' := snd (get_weather_data lat lon units w) in
  fst (get_weather_data lat lon units w) = Ok JNull
  /\ calls w' = calls w ++ [WeatherCall lat lon units]
  /\ exists e, log w' = log w ++ [WeatherAPIError e].
Proof.
  intros Hmiss Hfail w'.
  destruct (get_weather_data_miss_run lat lon units w Hmiss)
    as (v & Hfst & _ & Hcalls & _ & _ & Hcase).
  subst w'. rewrite Hfst.
  assert (Hv : v = JNull
               /\ exists e, log (snd (get_weather_data lat lon units w))
                            = log w ++ [WeatherAPIError e]).
  { destruct Hfail as [Hnet|(r & Hnet & [Hst|Hbody])]; rewrite Hnet in Hcase.
    - destruct Hcase as [-> Hlog]. eauto.
    - rewrite (raise_for_status_error r Hst) in Hcase.
      destruct Hcase as [-> Hlog]. eauto.
    - destruct (raise_for_status r) as [[]|e].
      + unfold response_json in Hcase. rewrite Hbody in Hcase.
        destruct Hcase as [-> Hlog]. eauto.
      + destruct Hcase as [-> Hlog]. eauto. }
  destruct Hv as [-> Hlog]. auto.
Qed.

Lemma whole_second_le (t : Z) : 0 <= t -> 0 <= whole_second t <= t.
Proof.
  intros Ht. unfold whole_second, ticks_per_second.
  pose proof (Z.quot_rem' t 1000000) as Hqr.
  pose proof (Z.rem_bound_pos t 1000000 Ht ltac:(lia)) as Hr.
  pose proof (Z.quot_pos t 1000000 Ht ltac:(lia)) as Hq.
  lia.
Qed.

(** X15: the cached forecast expires: once the timeout has elapsed since a
    fetching call returned, the next call with the same arguments goes out
    to the forecast service again. *)
Theorem get_weather_data_expires (lat lon : json Num) (units : string)
    (w w1 : World Num) (payload : json Num) (d : Z) :
  cache_get (make_cache_key lat lon units) w = (Ok JNull, w) ->
  get_weather_data lat lon units w = (Ok payload, w1) ->
  0 <= now w1 ->
  CACHE_DEFAULT_TIMEOUT <= d ->
  calls (snd (get_weather_data lat lon units (elapse d w1)))
  = calls w1 ++ [WeatherCall lat lon units].
Proof.
  intros Hmiss Hfirst Hnow Hd.
  destruct (get_weather_data_miss_run lat lon units w Hmiss)
    as (v & _ & _ & _ & Hstore & _).
  rewrite Hfirst in Hstore. simpl in Hstore.
  destruct (get_weather_data_miss_run lat lon units (elapse d w1))
    as (v2 & _ & _ & Hcalls2 & _).
  - unfold cache_get. simpl store. rewrite Hstore. simpl now.
    pose proof (whole_second_le (now w1) Hnow) as Hws.
    replace (whole_second (now w1) + CACHE_DEFAULT_TIMEOUT =? 0) with false
      by (symmetry; apply Z.eqb_neq;
          unfold CACHE_DEFAULT_TIMEOUT, ticks_per_second in *; lia).
    replace (now w1 + d <? whole_second (now w1) + CACHE_DEFAULT_TIMEOUT)
      with false by (symmetry; apply Z.ltb_ge; lia).
    reflexivity.
  - exact Hcalls2.
Qed.


(** A call either is served from the cache and changes nothing but,
    possibly, the version entry, or goes out once and writes the cache
    entry of its own key; no other key gains an entry. *)
Lemma get_weather_data_world (lat lon : json Num) (units : string)
    (w : World Num) :
  let w' := snd (get_weather_data lat lon units w) in
  (calls w' = calls w
   \/ calls w' = calls w ++ [WeatherCall lat lon units])
  /\ forall key, key <> make_cache_key lat lon units ->
       store w !! key = None -> store w' !! key = None.
Proof.
  unfold get_weather_data, memoize, bind. rewrite memoize_version_run.
  unfold cache_get.
  destruct (get_weather_data_body_total lat lon units (versioned w))
    as (v & w' & Hbody & Hcalls & Hstore & _).
  assert (Hkeep : forall key, store w !! key = None ->
                    store (versioned w) !! key = None).
  { intros key Hnone.
    destruct (versioned_cases w) as (_ & _ & _ & _ & [Hsame|[Hempty _]]).
    - rewrite Hsame. exact Hnone.
    - rewrite Hempty. apply lookup_empty. }
  destruct (versioned_cases w) as (_ & _ & Hc & _).
  assert (Hout : forall x,
             let w2 := mkWorld (now w') (net w') (calls w') (log w')
                         (<[make_cache_key lat lon units := x]> (store w'))
                         (memver w') in
             (calls w2 = calls w
              \/ calls w2 = calls w ++ [WeatherCall lat lon units])
             /\ forall key, key <> make_cache_key lat lon units ->
                  store w !! key = None -> store w2 !! key = None).
  { intros x. simpl. split; [right; rewrite Hcalls, Hc; reflexivity|].
    intros key Hne Hnone. rewrite lookup_insert_ne by congruence.
    rewrite Hstore. apply Hkeep. exact Hnone. }
  assert (Hin : (calls (versioned w) = calls w
                 \/ calls (versioned w)
                    = calls w ++ [WeatherCall lat lon units])
                /\ forall key, key <> make_cache_key lat lon units ->
                     store w !! key = None ->
                     store (versioned w) !! key = None).
  { split; [left; exact Hc|]. intros key _ Hnone. apply Hkeep. exact Hnone. }
  destruct (store (versioned w) !! make_cache_key lat lon units)
    as [[expires value]|].
  - destruct ((expires =? 0) || (now (versioned w) <? expires)).
    + destruct value; try exact Hin. rewrite Hbody. apply Hout.
    + rewrite Hbody. apply Hout.
  - rewrite Hbody. apply Hout.
Qed.

(** X16: cache entries do not answer for one another: after a call with
    one argument tuple, a call whose key differs (other coordinates, other
    units) and has no entry of its own is not served from the cache but
    makes its own outbound call, however soon it comes. *)
Theorem get_weather_data_keys_apart (lat lon lat' lon' : json Num)
    (units units' : string) (w : World Num) (d : Z) :
  make_cache_key lat' lon' units' <> make_cache_key lat lon units ->
  store w !! make_cache_key lat' lon' units' = None ->
  let w1 := snd (get_weather_data lat lon units w) in
  calls (snd (get_weather_data lat' lon' units' (elapse d w1)))
  = calls w1 ++ [WeatherCall lat' lon' units'].
Proof.
  intros Hkey Hnone w1.
  assert (Hnone1 : store w1 !! make_cache_key lat' lon' units' = None).
  { subst w1. apply (proj2 (get_weather_data_world lat lon units w));
      assumption. }
  destruct (get_weather_data_miss_run lat' lon' units' (elapse d w1))
    as (v2 & _ & _ & Hcalls2 & _).
  - unfold cache_get. simpl store. rewrite Hnone1. reflexivity.
  - exact Hcalls2.
Qed.


End Effects.

(** * Further properties of the handler *)

Section Pages.
Context {Num : Type} `{PyRuntime Num}.

Lemma display_time_run (v : json Num) (w : World Num) :
  display_time v w =
    (match display_zone v with
     | Ok zone => Ok (mkDateTime (now w) zone)
     | Raise e => Raise e
     end, w).
Proof.
  unfold display_time, display_zone, bind, datetime_now, lift, ret.
  destruct (py_truthy v); [|reflexivity].
  destruct (py_contains "timezone" v) as [[|]|e]; try reflexivity.
  destruct (py_getitem v "timezone") as [zone|e]; [|reflexivity].
  destruct (pytz_timezone zone); reflexivity.
Qed.

(** Lines 123-138 read the clock and nothing else of the world, and leave
    the world as it is. *)
Lemma render_found_run (request : Request) (v : json Num)
    (e : option string) (w : World Num) :
  render_found request (v, e) w = (page_at request v e (now w), w).
Proof.
  unfold render_found, page_at, bind. rewrite display_time_run.
  destruct (display_zone v) as [zone|ex]; [|reflexivity].
  rewrite (sub_record_run v "current_weather" w).
  destruct (if py_truthy v then py_getitem v "current_weather" else Ok JNull);
    [|reflexivity].
  rewrite (sub_record_run v "daily" w).
  destruct (if py_truthy v then py_getitem v "daily" else Ok JNull);
    reflexivity.
Qed.

Lemma render_found_world (request : Request)
    (found : json Num * option string) (w : World Num) :
  snd (render_found request found w) = w.
Proof. destruct found as [v e]. rewrite render_found_run. reflexivity. Qed.

(** The handler after a successful geocoding and a weather fetch, as one
    expression. *)
Lemma index_run (request : Request) (q : string) (w w1 w2 : World Num)
    (geo : Location Num) (v : json Num) :
  arg_location request = Some q -> q <> "" ->
  geocode_city q w = (Ok (Some geo), w1) ->
  get_weather_data (latitude geo) (longitude geo)
    (default "metric" (arg_units request)) w1 = (Ok v, w2) ->
  index request w =
    (if py_truthy v then
       match py_setitem v "locationName" (JStr (location_name geo)) with
       | Ok v' => page_at request v' None (now w2)
       | Raise e => Raise e
       end
     else
       page_at request v
         (Some ("Could not fetch weather for '" +:+ location_name geo
                +:+ "'.")) (now w2),
     w2).
Proof.
  intros Hloc Hq Hgeo Hwd. rewrite (index_truthy_query request q w Hloc Hq).
  unfold lookup_weather, bind. rewrite Hgeo, Hwd.
  destruct (py_truthy v).
  - unfold lift. destruct (py_setitem v "locationName" _); [|reflexivity].
    unfold ret. apply render_found_run.
  - unfold ret. apply render_found_run.
Qed.

(** X17: when geocoding succeeds and the weather fetch yields [None] or
    any other falsy value (an empty object, an empty list, zero), the page
    is rendered with the error "Could not fetch weather for '<display
    name>'.", with that value itself as weather data, without current and
    daily records, and with the server's local time. *)
Theorem index_falsy_payload (request : Request) (q : string)
    (w w1 w2 : World Num) (geo : Location Num) (v : json Num) :
  arg_location request = Some q -> q <> "" ->
  geocode_city q w = (Ok (Some geo), w1) ->
  get_weather_data (latitude geo) (longitude geo)
    (default "metric" (arg_units request)) w1 = (Ok v, w2) ->
  py_truthy v = false ->
  index request w =
    (Ok (mkPage v
           (Some ("Could not fetch weather for '" +:+ location_name geo
                  +:+ "'."))
           (Some q) (default "metric" (arg_units request))
           (mkDateTime (now w2) None) JNull JNull), w2).
Proof.
  intros Hloc Hq Hgeo Hwd Hv.
  rewrite (index_run request q w w1 w2 geo v Hloc Hq Hgeo Hwd), Hv.
  unfold page_at, display_zone. rewrite Hv, Hloc. reflexivity.
Qed.

(** X18: when geocoding succeeds and the forecast is an object that
    carries the current-conditions and the daily record, and whose time
    zone is either missing or a name the zone database knows, the handler
    renders: no error, the forecast with the display name attached, the
    two records as they came, the units as requested (metric when not
    given), and the time in that zone (local time when missing). *)
Theorem index_renders_forecast (request : Request) (q : string)
    (w w1 w2 : World Num) (geo : Location Num)
    (m : gmap string (json Num)) (cur dly : json Num) (zone : option string) :
  arg_location request = Some q -> q <> "" ->
  geocode_city q w = (Ok (Some geo), w1) ->
  get_weather_data (latitude geo) (longitude geo)
    (default "metric" (arg_units request)) w1 = (Ok (JObj m), w2) ->
  m !! "current_weather" = Some cur ->
  m !! "daily" = Some dly ->
  match zone with
  | Some z => m !! "timezone" = Some (JStr z) /\ tz_known z = true
  | None => m !! "timezone" = None
  end ->
  index request w =
    (Ok (mkPage (JObj (<["locationName" := JStr (location_name geo)]> m))
           None (Some q) (default "metric" (arg_units request))
           (mkDateTime (now w2) zone) cur dly), w2).
Proof.
  intros Hloc Hq Hgeo Hwd Hcur Hdly Hzone.
  rewrite (index_run request q w w1 w2 geo _ Hloc Hq Hgeo Hwd).
  assert (Htruthy : forall x,
             py_truthy (JObj (<["locationName" := x]> m)) = true).
  { intros x. simpl.
    destruct (size (<["locationName":=x]> m)) eqn:Hs; [|reflexivity].
    apply map_size_empty_iff in Hs.
    exact (False_ind _ (insert_non_empty m "locationName" x Hs)). }
  assert (Hm : py_truthy (JObj m) = true).
  { simpl. destruct (size m) eqn:Hs; [|reflexivity].
    apply map_size_empty_iff in Hs. subst m.
    rewrite lookup_empty in Hcur. discriminate. }
  rewrite Hm. simpl py_setitem. cbv beta iota.
  unfold page_at, display_zone. rewrite Htruthy.
  simpl py_contains. simpl py_getitem.
  rewrite !lookup_insert_ne by discriminate. rewrite Hcur, Hdly, Hloc.
  destruct zone as [z|].
  - destruct Hzone as [Hz Hk]. rewrite Hz.
    rewrite bool_decide_eq_true_2 by eauto. simpl. rewrite Hk. reflexivity.
  - rewrite Hzone. rewrite bool_decide_eq_false_2; [reflexivity|].
    intros [x Hx]; discriminate.
Qed.

(** X19: when the forecast body is truthy JSON that is not an object (a
    non-empty list or string, a non-zero number, true), the handler raises
    [TypeError] at the assignment of the display name and renders
    nothing. *)
Theorem index_rejects_non_object (request : Request) (q : string)
    (w w1 w2 : World Num) (geo : Location Num) (v : json Num) :
  arg_location request = Some q -> q <> "" ->
  geocode_city q w = (Ok (Some geo), w1) ->
  get_weather_data (latitude geo) (longitude geo)
    (default "metric" (arg_units request)) w1 = (Ok v, w2) ->
  py_truthy v = true ->
  (forall m, v <> JObj m) ->
  index request w = (Raise TypeError, w2).
Proof.
  intros Hloc Hq Hgeo Hwd Hv Hobj.
  rewrite (index_run request q w w1 w2 geo v Hloc Hq Hgeo Hwd), Hv.
  destruct v; try reflexivity. exfalso. eapply Hobj. reflexivity.
Qed.

Lemma index_world (request : Request) (q : string) (w : World Num) :
  arg_location request = Some q -> q <> "" ->
  snd (index request w) =
    match geocode_city q w with
    | (Ok (Some geo), w1) =>
        snd (get_weather_data (latitude geo) (longitude geo)
               (default "metric" (arg_units request)) w1)
    | (_, w1) => w1
    end.
Proof.
  intros Hloc Hq. rewrite (index_truthy_query request q w Hloc Hq).
  unfold lookup_weather, bind.
  destruct (geocode_city q w) as [[[geo|]|e] w1].
  - destruct (get_weather_data (latitude geo) (longitude geo)
                (default "metric" (arg_units request)) w1) as [[v|e] w2];
      [|reflexivity].
    destruct (py_truthy v).
    + unfold lift.
      destruct (py_setitem v "locationName" (JStr (location_name geo)));
        [|reflexivity].
      unfold ret. apply render_found_world.
    + unfold ret. apply render_found_world.
  - unfold ret. apply render_found_world.
  - reflexivity.
Qed.

(** X20: whatever the request and the network, one run of the handler
    makes no outbound call, or the geocoding call for the query alone, or
    that call followed by one weather call; the weather call is made only
    after geocoding returned a location, and carries that location's
    coordinates and the request's units (metric when not given)
    unchanged. *)
Theorem index_outbound_calls (request : Request) (w : World Num) :
  let w' := snd (index request w) in
  calls w' = calls w
  \/ exists q, arg_location request = Some q /\ q <> ""
       /\ (calls w' = calls w ++ [GeocodeCall q]
           \/ exists geo,
                fst (geocode_city q w) = Ok (Some geo)
                /\ calls w'
                   = calls w ++ [GeocodeCall q;
                       WeatherCall (latitude geo) (longitude geo)
                         (default "metric" (arg_units request))]).
Proof.
  destruct (arg_location request) as [q|] eqn:Hloc.
  2:{ left. rewrite index_falsy_query by (rewrite Hloc; reflexivity).
      reflexivity. }
  destruct (string_dec q "") as [->|Hq].
  { left. rewrite index_falsy_query by (rewrite Hloc; reflexivity).
    reflexivity. }
  right. exists q. split; [reflexivity|]. split; [exact Hq|].
  rewrite (index_world request q w Hloc Hq).
  destruct (geocode_city_frame q w) as [Hc _].
  destruct (geocode_city q w) as [[[geo|]|e] w1]; simpl in Hc;
    try (left; exact Hc).
  destruct (get_weather_data_world (latitude geo) (longitude geo)
              (default "metric" (arg_units request)) w1) as [[Hw|Hc2] _].
  - left. rewrite Hw. exact Hc.
  - right. exists geo. split; [reflexivity|].
    rewrite Hc2, Hc, <- app_assoc. reflexivity.
Qed.



End Pages.

(** ** The further properties on concrete exchanges *)

Lemma geocode_city_logging_witness :
  log (snd (geocode_city "Atlantis" (fresh offline)))
  = [GeocodingError "Atlantis" ConnectionError]
  /\ log (snd (geocode_city "Paris" (fresh (answering 503 None))))
     = [GeocodingError "Paris" (HTTPError 503)]
  /\ log (snd (geocode_city "Nowhereville" nowhere)) = [].
Proof.
  split; [|split].
  - apply (proj1 (geocode_city_logging "Atlantis" (fresh offline))).
    reflexivity.
  - apply (proj1 (proj2 (geocode_city_logging "Paris"
                           (fresh (answering 503 None))))
             (mkResponse 503 None)).
    + reflexivity.
    + unfold error_status. simpl. lia.
  - apply (proj2 (proj2 (proj2 (proj2
             (geocode_city_logging "Nowhereville" nowhere))))
             (mkResponse 200 (Some (JObj ∅))) ∅).
    + reflexivity.
    + unfold error_status. simpl. lia.
    + reflexivity.
    + reflexivity.
Defined.


Lemma get_weather_data_failure_witness :
  next_answer (fresh offline) paris_weather_call = TransportFailure
  /\ fst (get_weather_data (latitude paris_location)
            (longitude paris_location) "metric" (fresh offline))
     = Ok JNull
  /\ exists e,
       log (snd (get_weather_data (latitude paris_location)
                   (longitude paris_location) "metric" (fresh offline)))
       = log (fresh offline) ++ [WeatherAPIError e].
Proof.
  split; [reflexivity|].
  destruct (get_weather_data_failure (latitude paris_location)
              (longitude paris_location) "metric" (fresh offline))
    as (Hfst & _ & Hlog).
  - reflexivity.
  - left. reflexivity.
  - split; [exact Hfst|exact Hlog].
Defined.

Lemma get_weather_data_expires_witness :
  get_weather_data (latitude paris_location) (longitude paris_location)
    "metric" after_geocode = (Ok (JObj forecast), after_fetch)
  /\ calls (snd (get_weather_data (latitude paris_location)
                   (longitude paris_location) "metric"
                   (elapse CACHE_DEFAULT_TIMEOUT after_fetch)))
     = calls after_fetch ++ [paris_weather_call].
Proof.
  assert (Hwd : get_weather_data (latitude paris_location)
                  (longitude paris_location) "metric" after_geocode
                = (Ok (JObj forecast), after_fetch))
    by (vm_compute; reflexivity).
  split; [exact Hwd|].
  apply (get_weather_data_expires (latitude paris_location)
           (longitude paris_location) "metric" after_geocode after_fetch
           (JObj forecast) CACHE_DEFAULT_TIMEOUT).
  - reflexivity.
  - exact Hwd.
  - change (now after_fetch) with 1709640000370000. lia.
  - lia.
Defined.

Lemma get_weather_data_keys_apart_witness :
  store after_geocode
    !! make_cache_key (latitude paris_location) (longitude paris_location)
         "fahrenheit" = None
  /\ calls (snd (get_weather_data (latitude paris_location)
                   (longitude paris_location) "fahrenheit"
                   (elapse ticks_per_second after_fetch)))
     = calls after_fetch
       ++ [WeatherCall (latitude paris_location) (longitude paris_location)
             "fahrenheit"].
Proof.
  split; [reflexivity|].
  apply (get_weather_data_keys_apart (latitude paris_location)
           (longitude paris_location) (latitude paris_location)
           (longitude paris_location) "metric" "fahrenheit" after_geocode
           ticks_per_second).
  - discriminate.
  - reflexivity.
Defined.

Lemma index_falsy_payload_witness :
  geocode_city "Paris" (fresh (serving paris (JObj ∅)))
  = (Ok (Some paris_location),
     snd (geocode_city "Paris" (fresh (serving paris (JObj ∅)))))
  /\ index paris_request (fresh (serving paris (JObj ∅)))
     = (Ok (empty_forecast_page
              (snd (index paris_request (fresh (serving paris (JObj ∅)))))),
        snd (index paris_request (fresh (serving paris (JObj ∅))))).
Proof.
  assert (Hq : "Paris" <> "") by discriminate.
  assert (Hgeo : geocode_city "Paris" (fresh (serving paris (JObj ∅)))
                 = (Ok (Some paris_location),
                    snd (geocode_city "Paris"
                           (fresh (serving paris (JObj ∅))))))
    by (vm_compute; reflexivity).
  assert (Hwd : get_weather_data (latitude paris_location)
                  (longitude paris_location) "metric"
                  (snd (geocode_city "Paris"
                          (fresh (serving paris (JObj ∅)))))
                = (Ok (JObj ∅),
                   snd (index paris_request
                          (fresh (serving paris (JObj ∅))))))
    by (vm_compute; reflexivity).
  split; [exact Hgeo|].
  exact (index_falsy_payload paris_request "Paris"
           (fresh (serving paris (JObj ∅))) _ _ paris_location (JObj ∅)
           eq_refl Hq Hgeo Hwd eq_refl).
Defined.

Lemma index_renders_forecast_witness :
  geocode_city "Paris" start = (Ok (Some paris_location), after_geocode)
  /\ forecast !! "timezone" = Some (JStr "Europe/Paris")
  /\ index paris_request start = (Ok paris_page, after_fetch).
Proof.
  assert (Hq : "Paris" <> "") by discriminate.
  assert (Hgeo : geocode_city "Paris" start
                 = (Ok (Some paris_location), after_geocode))
    by (vm_compute; reflexivity).
  assert (Hwd : get_weather_data (latitude paris_location)
                  (longitude paris_location) "metric" after_geocode
                = (Ok (JObj forecast), after_fetch))
    by (vm_compute; reflexivity).
  split; [exact Hgeo|]. split; [reflexivity|].
  exact (index_renders_forecast paris_request "Paris" start after_geocode
           after_fetch paris_location forecast current_weather daily_series
           (Some "Europe/Paris") eq_refl Hq Hgeo Hwd eq_refl eq_refl
           (conj eq_refl eq_refl)).
Defined.

Lemma index_rejects_non_object_witness :
  fst (index paris_request (fresh (serving paris (JArr [JStr "rain"]))))
  = Raise TypeError.
Proof.
  assert (Hq : "Paris" <> "") by discriminate.
  assert (Hgeo : geocode_city "Paris"
                   (fresh (serving paris (JArr [JStr "rain"])))
                 = (Ok (Some paris_location),
                    snd (geocode_city "Paris"
                           (fresh (serving paris (JArr [JStr "rain"]))))))
    by (vm_compute; reflexivity).
  assert (Hwd : get_weather_data (latitude paris_location)
                  (longitude paris_location) "metric"
                  (snd (geocode_city "Paris"
                          (fresh (serving paris (JArr [JStr "rain"])))))
                = (Ok (JArr [JStr "rain"]),
                   snd (index paris_request
                          (fresh (serving paris (JArr [JStr "rain"]))))))
    by (vm_compute; reflexivity).
  rewrite (index_rejects_non_object paris_request "Paris"
             (fresh (serving paris (JArr [JStr "rain"]))) _ _ paris_location
             (JArr [JStr "rain"]) eq_refl Hq Hgeo Hwd eq_refl
             ltac:(discriminate)).
  reflexivity.
Defined.


Lemma geocode_city_admin1_without_country_witness :
  paris_no_country !! "admin1" = Some (JStr "Ile-de-France")
  /\ paris_no_country !! "country" = None
  /\ fst (geocode_city "Paris" (fresh (serving paris_no_country JNull)))
     = Ok None
  /\ log (snd (geocode_city "Paris" (fresh (serving paris_no_country JNull))))
     = [GeocodingError "Paris" (KeyError "country")].
Proof.
  split; [reflexivity|]. split; [reflexivity|].
  exact (geocode_city_admin1_without_country "Paris"
           (fresh (serving paris_no_country JNull))
           (mkResponse 200 (Some (geocoding_body paris_no_country)))
           paris_no_country (JNum (4885 # 100)) (JNum (235 # 100))
           (JStr "Paris") (JStr "Ile-de-France")
           eq_refl eq_refl eq_refl eq_refl eq_refl eq_refl eq_refl).
Defined.
